(** * Time-zone import pipeline (script.py): a shallow embedding

    The script fetches the zone list of a remote time-zone service, fetches
    the details of every zone under a request-rate ceiling, and merges the
    details into a relational store.  The embedding below follows
    [script.py] function by function:

    - Python values coming out of [response.json()] are the inductive type
      [pyval]; a Python [dict] is a [gmap string pyval];
    - an exception is a value of type [exn], and code that may raise lives
      in the error monad [result];
    - [requests.get], [time.sleep], [time.time] and [print] act on an
      explicit [World]; the remote service and the time every blocking
      call takes are parameters of the pipeline;
    - the cursor acts on an explicit database state [DB]. *)

From Stdlib Require Import ZArith QArith Lqa.
From stdpp Require Import gmap strings list fin_maps pretty.

#[local] Set Warnings "-register-all".
#[local] Open Scope string_scope.
#[local] Open Scope list_scope.

(** ** Python values *)

(** The values [response.json()] decodes.  Numbers are integers, as the
    numeric fields of the API are (offsets, epoch seconds). *)
Inductive pyval : Type :=
| PNone
| PBool (b : bool)
| PInt (n : Z)
| PStr (s : string)
| PList (l : list pyval)
| PDict (d : gmap string pyval).

(** Truth value of an object, as tested by [if x:] and [not x]. *)
Definition truthy (v : pyval) : bool :=
  match v with
  | PNone => false
  | PBool b => b
  | PInt n => negb (n =? 0)%Z
  | PStr s => negb (String.eqb s EmptyString)
  | PList l => match l with [] => false | _ :: _ => true end
  | PDict d => match map_to_list d with [] => false | _ :: _ => true end
  end.

(** [d.get(k)]: the value, or [None] when the key is absent. *)
Definition dict_get (d : gmap string pyval) (k : string) : pyval :=
  default PNone (d !! k).

(** [d.get(k, dflt)]. *)
Definition dict_get_default (d : gmap string pyval) (k : string) (dflt : pyval) : pyval :=
  default dflt (d !! k).

(** [v != s] for a string literal [s]. *)
Definition py_ne_str (v : pyval) (s : string) : bool :=
  match v with
  | PStr s' => negb (String.eqb s' s)
  | _ => true
  end.

(** [needle in hay] on strings. *)
Fixpoint str_contains (needle hay : string) : bool :=
  String.prefix needle hay ||
  match hay with
  | EmptyString => false
  | String _ rest => str_contains needle rest
  end.

(** ** Exceptions and the error monad *)

Inductive exn : Type :=
| RequestException (msg : string)
| JSONDecodeError
| AttributeError
| KeyError (key : string)
| TypeError
| ZeroDivisionError
| ValueError
| DatabaseError (msg : string).

(** [repr(e)]: the name of the exception class around its message.  The
    messages of the decoding and attribute errors depend on the body and
    on the type of the value decoded; one representative text stands for
    each here. *)
Definition repr (e : exn) : string :=
  match e with
  | RequestException msg => "RequestException('" +:+ msg +:+ "')"
  | JSONDecodeError => "JSONDecodeError('Expecting value: line 1 column 1 (char 0)')"
  | AttributeError => "AttributeError('object has no attribute get')"
  | KeyError key => "KeyError('" +:+ key +:+ "')"
  | TypeError => "TypeError()"
  | ZeroDivisionError => "ZeroDivisionError('division by zero')"
  | ValueError => "ValueError('sleep length must be non-negative')"
  | DatabaseError msg => "DatabaseError('" +:+ msg +:+ "')"
  end.

Inductive result (A : Type) : Type :=
| Ok (a : A)
| Raise (e : exn).

Arguments Ok {A} a.
Arguments Raise {A} e.

#[global] Instance result_ret : MRet result := fun A a => Ok a.

#[global] Instance result_bind : MBind result := fun A B f m =>
  match m with
  | Ok a => f a
  | Raise e => Raise e
  end.

(** ** HTTP responses and the response decoder *)

(** What the script reads of a [requests.Response]: [ok], [reason],
    [headers.get('Content-Type')], and [json()], which raises when the body
    is not JSON ([body = None]). *)
Record Response : Type := mkResponse {
  ok : bool;
  reason : string;
  content_type : option string;
  body : option pyval
}.

(** [response.json()]. *)
Definition response_json (r : Response) : result pyval :=
  match body r with
  | Some v => Ok v
  | None => Raise JSONDecodeError
  end.

(** The receiver of [response.json().get(...)]: [.get] exists on a decoded
    JSON object only. *)
Definition response_json_dict (r : Response) : result (gmap string pyval) :=
  v ← response_json r;
  match v with
  | PDict d => Ok d
  | _ => Raise AttributeError
  end.

(** ['application/json' not in response.headers.get('Content-Type', {})]:
    with the header absent the test runs against the empty dict. *)
Definition not_json_content (r : Response) : bool :=
  match content_type r with
  | Some ct => negb (str_contains "application/json" ct)
  | None => true
  end.

(** The branch taken when the response is refused (lines 162-166). *)
Definition extract_error (r : Response) : result (gmap string pyval * pyval) :=
  if not_json_content r then Ok (∅, PStr (reason r))
  else
    d ← response_json_dict r;
    Ok (∅, dict_get_default d "message" (PStr "No error message in response")).

Definition extract_json (r : Response) : result (gmap string pyval * pyval) :=
  if negb (ok r) then extract_error r
  else
    d ← response_json_dict r;
    if py_ne_str (dict_get d "status") "OK" then extract_error r
    else Ok (d, PStr EmptyString).

(** ** The world: clock, network, standard output *)

Inductive Request : Type :=
| ListTimeZone
| GetTimeZone (zone : pyval).

(** [now] is the clock read by [time.time()] (and by the database for
    [CURRENT_TIMESTAMP]), in seconds, as an exact rational; [ticks] counts
    the blocking calls made so far; [requests] is the trace of the HTTP
    requests attempted; [stdout] holds the lines printed.  The clock
    advances during the blocking calls, [requests.get] and [time.sleep],
    and only then. *)
Record World : Type := mkWorld {
  now : Q;
  ticks : nat;
  requests : list Request;
  stdout : list string
}.

(** [subscript v k] is [v[k]] for a string key. *)
Definition subscript (v : pyval) (k : string) : result pyval :=
  match v with
  | PDict d =>
      match d !! k with
      | Some x => Ok x
      | None => Raise (KeyError k)
      end
  | _ => Raise TypeError
  end.

Definition max_bigint_value : Z := 9223372036854775807.

(** Lines 93-98 of [get_time_zone_by_name]: fill in non-nullable fields. *)
Definition fill_non_nullable (json_result : gmap string pyval) : gmap string pyval :=
  let json_result1 :=
    if truthy (PDict json_result) && negb (truthy (dict_get json_result "zoneStart"))
    then <["zoneStart" := PInt (- max_bigint_value)]> json_result
    else json_result in
  if truthy (PDict json_result1) && negb (truthy (dict_get json_result1 "zoneEnd"))
  then <["zoneEnd" := PInt max_bigint_value]> json_result1
  else json_result1.

(** The [except Exception as e] clause of both fetchers. *)
Definition script_error (e : exn) : pyval :=
  PStr ("Python Script Error: " +:+ repr e).

(** The [try] block of [get_time_zone_by_name], lines 66-91, once
    [requests.get] has answered or raised: [json_result] and [error] keep
    their initial values unless the decoder returns. *)
Definition try_extract_json (response : result Response) : gmap string pyval * pyval :=
  match (r ← response; extract_json r) with
  | Ok (json_result, error) => (json_result, error)
  | Raise e => (∅, script_error e)
  end.

(** [print(line)]: the line joins the standard output; the time the call
    takes is not counted. *)
Definition print (line : string) (w : World) : World :=
  {| now := now w; ticks := ticks w; requests := requests w;
     stdout := stdout w ++ [line] |}.

Definition time_time (w : World) : Q := now w.

Section Pipeline.

(** [remote n req]: what [requests.get] gives for [req] when [n] requests
    were sent before it, a response or a transport exception. *)
Variable remote : nat -> Request -> result Response.

(** [latency n]: the time the [n]-th blocking call of the run takes: the
    whole duration of a request, and for a sleep what it lasts beyond the
    length asked for. *)
Variable latency : nat -> Q.

Definition requests_get (req : Request) (w : World) : result Response * World :=
  (remote (length (requests w)) req,
   {| now := now w + latency (ticks w); ticks := S (ticks w);
      requests := requests w ++ [req]; stdout := stdout w |}).

(** [time.sleep(secs)]: raises on a negative length, else blocks for at
    least [secs].  Lengths are exact rationals here: the lengths a float
    holds beyond them (NaN, and those past the 64-bit nanosecond clock of
    the interpreter, over 9.2e9 seconds, which it refuses with an
    OverflowError) have no counterpart. *)
Definition time_sleep (secs : Q) (w : World) : result World :=
  if negb (Qle_bool 0 secs) then Raise ValueError
  else Ok {| now := now w + secs + latency (ticks w); ticks := S (ticks w);
             requests := requests w; stdout := stdout w |}.

Definition list_time_zone (w : World) : (pyval * pyval) * World :=
  let '(response, w1) := requests_get ListTimeZone w in
  let attempt :=
    r ← response;
    '(data, error) ← extract_json r;
    Ok (dict_get_default data "zones" (PList []), error) in
  match attempt with
  | Ok (json_result, error) => ((json_result, error), w1)
  | Raise e => ((PList [], script_error e), w1)
  end.

Definition get_time_zone_by_name (zone_name : pyval) (w : World)
  : (gmap string pyval * pyval) * World :=
  let '(response, w1) := requests_get (GetTimeZone zone_name) w in
  let '(json_result, error) := try_extract_json response in
  ((fill_non_nullable json_result, error), w1).

(** The [for tz in time_zones] loop, lines 126-147; the accumulators are
    the loop's variables. *)
Fixpoint details_loop (time_per_request : Q) (total_zones : nat)
    (time_zones : list pyval) (start_time : Q)
    (zone_details : list (gmap string pyval)) (errors : list pyval)
    (i : nat) (w : World)
  : result ((list (gmap string pyval) * list pyval) * World) :=
  match time_zones with
  | [] => Ok ((zone_details, errors), w)
  | tz :: rest =>
      zone_name ← subscript tz "zoneName";
      let '((zone_detail, error), w1) := get_time_zone_by_name zone_name w in
      let '(zone_details1, errors1) :=
        if truthy error then (zone_details, errors ++ [error])
        else (zone_details ++ [zone_detail], errors) in
      let w2 :=
        print (pretty i +:+ "/" +:+ pretty total_zones +:+ " Time Zones Loaded") w1 in
      let elapsed_time := (time_time w2 - start_time)%Q in
      w3 ← (if negb (Qle_bool time_per_request elapsed_time)
            then time_sleep (time_per_request - elapsed_time) w2
            else Ok w2);
      details_loop time_per_request total_zones rest (time_time w3)
        zone_details1 errors1 (S i) w3
  end.

Definition get_time_zone_details (time_zones : list pyval) (rate_limit buffer : Q)
    (w : World) : result ((list (gmap string pyval) * list pyval) * World) :=
  if Qeq_bool rate_limit 0 then Raise ZeroDivisionError
  else
    let time_per_request := (1 / rate_limit + buffer)%Q in
    w1 ← time_sleep time_per_request w;
    details_loop time_per_request (length time_zones) time_zones (time_time w1)
      [] [] 1 w1.

End Pipeline.

(** ** The database *)

(** A value held by a column.  The tables are declared outside the
    script, so the columns are not typed here: a value is stored the way
    the driver adapts it, without the conversion to the column's type the
    server applies (a 64-bit column refuses an integer out of its range,
    and reads a string of digits as a number). *)
Inductive sqlval : Type :=
| SNull
| SBool (b : bool)
| SInt (n : Z)
| SText (s : string)
| STimestamp (t : Q).

(** Modelled from the spec: the tables are declared outside the script,
    and the data model gives each column one scalar field.  The driver
    sends a non-empty list as an ARRAY constructor; what the server makes
    of it depends on the column's type: a numeric column refuses it, a
    text column would store its text form.  The untyped columns of this
    model refuse it. *)
Definition store_array (l : list pyval) : result sqlval :=
  Raise (DatabaseError "column is not of an array type").

(** Adaptation of a query argument by the driver: [None] is sent as NULL,
    a [dict] cannot be adapted, an empty list is sent as the literal
    ['{}'] and a non-empty one as an ARRAY constructor. *)
Definition adapt (v : pyval) : result sqlval :=
  match v with
  | PNone => Ok SNull
  | PBool b => Ok (SBool b)
  | PInt n => Ok (SInt n)
  | PStr s => Ok (SText s)
  | PList [] => Ok (SText "{}")
  | PList (x :: l) => store_array (x :: l)
  | PDict _ => Raise (DatabaseError "can't adapt type 'dict'")
  end.

(** The named placeholder [%(k)s] of a query run with arguments [row]:
    the driver takes [row[k]] and adapts it.  With [row = None] no
    argument is bound and the server refuses the placeholder. *)
Definition query_arg (row : pyval) (k : string) : result sqlval :=
  match row with
  | PNone => Raise (DatabaseError "syntax error at or near %")
  | _ => v ← subscript row k; adapt v
  end.

Definition sql_is_null (v : sqlval) : bool :=
  match v with
  | SNull => true
  | _ => false
  end.

(** [a = b] in SQL: unknown ([None]) as soon as one side is NULL. *)
Definition sql_eq (a b : sqlval) : option bool :=
  match a, b with
  | SNull, _ | _, SNull => None
  | SBool x, SBool y => Some (Bool.eqb x y)
  | SInt x, SInt y => Some (x =? y)%Z
  | SText x, SText y => Some (String.eqb x y)
  | STimestamp x, STimestamp y => Some (Qeq_bool x y)
  | _, _ => Some false
  end.

(** [p AND q] in SQL's three-valued logic. *)
Definition sql_and (p q : option bool) : option bool :=
  match p, q with
  | Some false, _ | _, Some false => Some false
  | Some true, Some true => Some true
  | _, _ => None
  end.

(** A row qualifies for a join or a WHERE clause when the condition is
    true, not when it is unknown. *)
Definition sql_holds (p : option bool) : bool :=
  match p with
  | Some true => true
  | _ => false
  end.

Module TZDB_ERROR_LOG.
Record row : Type := mk {
  ERROR_MESSAGE : sqlval;
  ERROR_DATE : sqlval
}.
End TZDB_ERROR_LOG.

Module TZDB_TIMEZONES.
Record row : Type := mk {
  COUNTRYCODE : sqlval;
  COUNTRYNAME : sqlval;
  ZONENAME : sqlval;
  GMTOFFSET : sqlval;
  IMPORT_DATE : sqlval
}.
End TZDB_TIMEZONES.

Module TZDB_ZONE_DETAILS.
Record row : Type := mk {
  ZONENAME : sqlval;
  ZONESTART : sqlval;
  ZONEEND : sqlval;
  COUNTRYCODE : sqlval;
  COUNTRYNAME : sqlval;
  GMTOFFSET : sqlval;
  DST : sqlval;
  IMPORT_DATE : sqlval
}.

(** The deduplication key. *)
Definition key (r : row) : sqlval * sqlval * sqlval :=
  (ZONENAME r, ZONESTART r, ZONEEND r).
End TZDB_ZONE_DETAILS.

(** The state of the connection: the three persisted tables, the two
    temporary tables of the session ([None] while they do not exist), and
    the number of commits.  A run that raises leaves no state behind: its
    transaction is never committed. *)
Record DB : Type := mkDB {
  error_log : list TZDB_ERROR_LOG.row;
  timezones : list TZDB_TIMEZONES.row;
  zone_details : list TZDB_ZONE_DETAILS.row;
  temp_time_table : option (list sqlval);
  temp_zone_details : option (list TZDB_ZONE_DETAILS.row);
  commits : nat
}.

Definition set_error_log (f : list TZDB_ERROR_LOG.row -> list TZDB_ERROR_LOG.row)
    (db : DB) : DB :=
  mkDB (f (error_log db)) (timezones db) (zone_details db)
       (temp_time_table db) (temp_zone_details db) (commits db).

Definition set_timezones (f : list TZDB_TIMEZONES.row -> list TZDB_TIMEZONES.row)
    (db : DB) : DB :=
  mkDB (error_log db) (f (timezones db)) (zone_details db)
       (temp_time_table db) (temp_zone_details db) (commits db).

Definition set_zone_details
    (f : list TZDB_ZONE_DETAILS.row -> list TZDB_ZONE_DETAILS.row) (db : DB) : DB :=
  mkDB (error_log db) (timezones db) (f (zone_details db))
       (temp_time_table db) (temp_zone_details db) (commits db).

Definition set_temp_time_table (t : option (list sqlval)) (db : DB) : DB :=
  mkDB (error_log db) (timezones db) (zone_details db)
       t (temp_zone_details db) (commits db).

Definition set_temp_zone_details (t : option (list TZDB_ZONE_DETAILS.row))
    (db : DB) : DB :=
  mkDB (error_log db) (timezones db) (zone_details db)
       (temp_time_table db) t (commits db).

(** [connection.commit()]. *)
Definition commit (db : DB) : DB :=
  mkDB (error_log db) (timezones db) (zone_details db)
       (temp_time_table db) (temp_zone_details db) (S (commits db)).

(** Modelled from the spec: TZDB_ERROR_LOG is declared outside the script;
    its ERROR_DATE column is filled by the database.  The default is taken
    to be CURRENT_TIMESTAMP, as for the column of [temp_time_table]: the
    time at which the transaction began, [w] being the world in which the
    connection ran its first statement. *)
Definition error_date_default (w : World) : sqlval := STimestamp (now w).

(** [log_error]: one row of TZDB_ERROR_LOG, in the transaction begun in
    world [w]. *)
Definition log_error (w : World) (db : DB) (err : pyval) : result DB :=
  m ← adapt err;
  Ok (set_error_log (fun t => t ++ [TZDB_ERROR_LOG.mk m (error_date_default w)]) db).

(** [for d_error in details_errors: log_error(cursor, d_error)]. *)
Fixpoint log_errors (w : World) (db : DB) (errs : list pyval) : result DB :=
  match errs with
  | [] => Ok db
  | e :: rest => db1 ← log_error w db e; log_errors w db1 rest
  end.

(** [CREATE TEMPORARY TABLE temp_time_table (...)]. *)
Definition create_temp_time_table (db : DB) : result DB :=
  match temp_time_table db with
  | Some _ => Raise (DatabaseError "relation temp_time_table already exists")
  | None => Ok (set_temp_time_table (Some []) db)
  end.

(** [INSERT INTO temp_time_table DEFAULT VALUES]: the one column takes its
    default, CURRENT_TIMESTAMP, the time at which the transaction began in
    world [w]. *)
Definition insert_temp_time (w : World) (db : DB) : result DB :=
  match temp_time_table db with
  | Some t => Ok (set_temp_time_table (Some (t ++ [STimestamp (now w)])) db)
  | None => Raise (DatabaseError "relation temp_time_table does not exist")
  end.

(** The scalar subquery [(SELECT import_time FROM temp_time_table)]. *)
Definition select_import_time (db : DB) : result sqlval :=
  match temp_time_table db with
  | None => Raise (DatabaseError "relation temp_time_table does not exist")
  | Some [] => Ok SNull
  | Some [t] => Ok t
  | Some (_ :: _ :: _) =>
      Raise (DatabaseError "more than one row returned by a subquery")
  end.

(** [TRUNCATE TABLE "TZDB_TIMEZONES"]. *)
Definition truncate_timezones (db : DB) : DB :=
  set_timezones (fun _ => []) db.

(** [cursor.execute(tzdb_timezones_query, row)]. *)
Definition tzdb_timezones_query (row : pyval) (db : DB) : result DB :=
  countryCode ← query_arg row "countryCode";
  countryName ← query_arg row "countryName";
  zoneName ← query_arg row "zoneName";
  gmtOffset ← query_arg row "gmtOffset";
  import_time ← select_import_time db;
  Ok (set_timezones
        (fun t => t ++ [TZDB_TIMEZONES.mk countryCode countryName zoneName
                          gmtOffset import_time]) db).

Fixpoint insert_timezones (rows : list pyval) (db : DB) : result DB :=
  match rows with
  | [] => Ok db
  | row :: rest => db1 ← tzdb_timezones_query row db; insert_timezones rest db1
  end.

(** [CREATE TEMPORARY TABLE temp_zone_details AS SELECT * FROM
    "TZDB_ZONE_DETAILS" WHERE 1=0]. *)
Definition create_temp_zone_details (db : DB) : result DB :=
  match temp_zone_details db with
  | Some _ => Raise (DatabaseError "relation temp_zone_details already exists")
  | None => Ok (set_temp_zone_details (Some []) db)
  end.

(** [cursor.execute(temp_table_insert_query, row)]. *)
Definition temp_table_insert_query (row : gmap string pyval) (db : DB) : result DB :=
  zoneName ← query_arg (PDict row) "zoneName";
  zoneStart ← query_arg (PDict row) "zoneStart";
  zoneEnd ← query_arg (PDict row) "zoneEnd";
  countryCode ← query_arg (PDict row) "countryCode";
  countryName ← query_arg (PDict row) "countryName";
  gmtOffset ← query_arg (PDict row) "gmtOffset";
  dst ← query_arg (PDict row) "dst";
  import_time ← select_import_time db;
  match temp_zone_details db with
  | Some t =>
      Ok (set_temp_zone_details
            (Some (t ++ [TZDB_ZONE_DETAILS.mk zoneName zoneStart zoneEnd countryCode
                           countryName gmtOffset dst import_time])) db)
  | None => Raise (DatabaseError "relation temp_zone_details does not exist")
  end.

Fixpoint stage_details (rows : list (gmap string pyval)) (db : DB) : result DB :=
  match rows with
  | [] => Ok db
  | row :: rest => db1 ← temp_table_insert_query row db; stage_details rest db1
  end.

(** The ON condition of the join of [filtered_insert_query]. *)
Definition on_condition (staged dest : TZDB_ZONE_DETAILS.row) : option bool :=
  sql_and
    (sql_and
       (sql_eq (TZDB_ZONE_DETAILS.ZONENAME staged) (TZDB_ZONE_DETAILS.ZONENAME dest))
       (sql_eq (TZDB_ZONE_DETAILS.ZONESTART staged) (TZDB_ZONE_DETAILS.ZONESTART dest)))
    (sql_eq (TZDB_ZONE_DETAILS.ZONEEND staged) (TZDB_ZONE_DETAILS.ZONEEND dest)).

(** [staged LEFT JOIN dest ON ...]: every staged row with each destination
    row it matches, or once with an all-NULL destination side ([None])
    when it matches none. *)
Definition left_join (staged dest : list TZDB_ZONE_DETAILS.row)
  : list (TZDB_ZONE_DETAILS.row * option TZDB_ZONE_DETAILS.row) :=
  flat_map
    (fun s =>
       match List.filter (fun d => sql_holds (on_condition s d)) dest with
       | [] => [(s, None)]
       | matched => map (fun d => (s, Some d)) matched
       end) staged.

(** [WHERE "TZDB_ZONE_DETAILS"."ZONENAME" IS NULL] on a joined row. *)
Definition where_zonename_is_null
    (joined : TZDB_ZONE_DETAILS.row * option TZDB_ZONE_DETAILS.row) : bool :=
  match snd joined with
  | None => true
  | Some d => sql_is_null (TZDB_ZONE_DETAILS.ZONENAME d)
  end.

(** The rows selected by [filtered_insert_query]. *)
Definition filtered_select (staged dest : list TZDB_ZONE_DETAILS.row)
  : list TZDB_ZONE_DETAILS.row :=
  map fst (List.filter where_zonename_is_null (left_join staged dest)).

(** [cursor.execute(filtered_insert_query)]. *)
Definition filtered_insert_query (db : DB) : result DB :=
  match temp_zone_details db with
  | Some staged =>
      Ok (set_zone_details (fun dest => dest ++ filtered_select staged dest) db)
  | None => Raise (DatabaseError "relation temp_zone_details does not exist")
  end.

Section Orchestrator.

Variable remote : nat -> Request -> result Response.
Variable latency : nat -> Q.

(** The driver begins the connection's transaction with the first
    statement the cursor runs, which on every path comes right after the
    list fetch, in world [w1]. *)
Definition populate_data (w : World) (db : DB) : result (World * DB) :=
  let '((time_zones, time_zones_error), w1) := list_time_zone remote latency w in
  let TZDB_TIMEZONES_entries := time_zones in
  db1 ← (if truthy time_zones_error then log_error w1 db time_zones_error
         else Ok db);
  if negb (truthy TZDB_TIMEZONES_entries) then
    db2 ← log_error w1 db1 (PStr "No data received from API. List query failed.");
    Ok (w1, commit db2)
  else
    db2 ← create_temp_time_table db1;
    db3 ← insert_temp_time w1 db2;
    let db4 := truncate_timezones db3 in
    (* a truthy value that is not a list fails in the first iteration
       of the loop: it is not iterable, or its first element is not a
       mapping *)
    rows ← match TZDB_TIMEZONES_entries with
           | PList l => Ok l
           | _ => Raise TypeError
           end;
    db5 ← insert_timezones rows db4;
    '((TZDB_ZONE_DETAILS_entries, details_errors), w2) ←
      get_time_zone_details remote latency rows 1 1 w1;
    db6 ← log_errors w1 db5 details_errors;
    db7 ← create_temp_zone_details db6;
    db8 ← stage_details TZDB_ZONE_DETAILS_entries db7;
    db9 ← filtered_insert_query db8;
    Ok (w2, commit db9).

End Orchestrator.

(** * Vocabulary of the statements *)

(** The responses the decoder has to refuse: the transport status is not
    ok, or the body decodes to an object whose [status] is not ["OK"]. *)
Definition refused (r : Response) : Prop :=
  ok r = false ∨ ∃ d, body r = Some (PDict d) ∧ d !! "status" ≠ Some (PStr "OK").

Definition nonempty_string (v : pyval) : Prop :=
  ∃ s, v = PStr s ∧ s ≠ EmptyString.

(** The decoder refuses [r] the way the specification words it: an empty
    payload together with a non-empty error string. *)
Definition refuses_with_error (r : Response) : Prop :=
  ∃ error, extract_json r = Ok (∅, error) ∧ nonempty_string error.

Definition no_message : pyval := PStr "No error message in response".

(** A bound the API left out: the key is absent, or holds null or zero. *)
Definition absent_null_or_zero (o : option pyval) : Prop :=
  o = None ∨ o = Some PNone ∨ o = Some (PInt 0).

Definition no_data_message : string :=
  "No data received from API. List query failed.".

(** The rows [log_error] writes for the messages [msgs] in the transaction
    begun in world [w]. *)
Definition error_rows (w : World) (msgs : list sqlval) : list TZDB_ERROR_LOG.row :=
  map (fun m => TZDB_ERROR_LOG.mk m (error_date_default w)) msgs.

(** The database an early exit leaves behind: [msgs] appended to the error
    log, one more commit, nothing else touched. *)
Definition ended_early (w : World) (db : DB) (msgs : list sqlval) : DB :=
  mkDB (error_log db ++ error_rows w msgs) (timezones db) (zone_details db)
       (temp_time_table db) (temp_zone_details db) (S (commits db)).

(** The line printed after the [i]-th zone. *)
Definition progress_line (i total_zones : nat) : string :=
  pretty i +:+ "/" +:+ pretty total_zones +:+ " Time Zones Loaded".

(** [names] are the zone names of [time_zones], in order: every zone is an
    object with a [zoneName]. *)
Definition zone_names (time_zones names : list pyval) : Prop :=
  Forall2 (fun tz name => subscript tz "zoneName" = Ok name) time_zones names.

Definition failed (outcome : gmap string pyval * pyval) : bool :=
  truthy (snd outcome).

Definition succeeded (outcome : gmap string pyval * pyval) : bool :=
  negb (truthy (snd outcome)).

(** The three key columns of a row hold values (none is NULL). *)
Definition has_key (r : TZDB_ZONE_DETAILS.row) : bool :=
  negb (sql_is_null (TZDB_ZONE_DETAILS.ZONENAME r)) &&
  negb (sql_is_null (TZDB_ZONE_DETAILS.ZONESTART r)) &&
  negb (sql_is_null (TZDB_ZONE_DETAILS.ZONEEND r)).

(** No destination row matches the staged row [s] on the key. *)
Definition unmatched (dest : list TZDB_ZONE_DETAILS.row) (s : TZDB_ZONE_DETAILS.row)
  : bool :=
  negb (existsb (fun d => sql_holds (on_condition s d)) dest).

(** The destination table after the merge of [staged]. *)
Definition merged (dest staged : list TZDB_ZONE_DETAILS.row)
  : list TZDB_ZONE_DETAILS.row :=
  dest ++ filtered_select staged dest.

(** The driver adapts the errors [errors] to the messages [msgs], one by
    one. *)
Definition adapted (errors : list pyval) (msgs : list sqlval) : Prop :=
  Forall2 (fun e m => adapt e = Ok m) errors msgs.

(** [row] is the row [tzdb_timezones_query] writes for [zone]. *)
Definition summary_row (import_time : sqlval) (zone : pyval)
    (row : TZDB_TIMEZONES.row) : Prop :=
  query_arg zone "countryCode" = Ok (TZDB_TIMEZONES.COUNTRYCODE row) ∧
  query_arg zone "countryName" = Ok (TZDB_TIMEZONES.COUNTRYNAME row) ∧
  query_arg zone "zoneName" = Ok (TZDB_TIMEZONES.ZONENAME row) ∧
  query_arg zone "gmtOffset" = Ok (TZDB_TIMEZONES.GMTOFFSET row) ∧
  TZDB_TIMEZONES.IMPORT_DATE row = import_time.

(** [row] is the row [temp_table_insert_query] stages for [detail]. *)
Definition detail_row (import_time : sqlval) (detail : gmap string pyval)
    (row : TZDB_ZONE_DETAILS.row) : Prop :=
  query_arg (PDict detail) "zoneName" = Ok (TZDB_ZONE_DETAILS.ZONENAME row) ∧
  query_arg (PDict detail) "zoneStart" = Ok (TZDB_ZONE_DETAILS.ZONESTART row) ∧
  query_arg (PDict detail) "zoneEnd" = Ok (TZDB_ZONE_DETAILS.ZONEEND row) ∧
  query_arg (PDict detail) "countryCode" = Ok (TZDB_ZONE_DETAILS.COUNTRYCODE row) ∧
  query_arg (PDict detail) "countryName" = Ok (TZDB_ZONE_DETAILS.COUNTRYNAME row) ∧
  query_arg (PDict detail) "gmtOffset" = Ok (TZDB_ZONE_DETAILS.GMTOFFSET row) ∧
  query_arg (PDict detail) "dst" = Ok (TZDB_ZONE_DETAILS.DST row) ∧
  TZDB_ZONE_DETAILS.IMPORT_DATE row = import_time.

Section Outcomes.

Variable remote : nat -> Request -> result Response.

(** What the detail fetch of [zone_name] returns when [n] requests were
    sent before it. *)
Definition zone_result (n : nat) (zone_name : pyval) : gmap string pyval * pyval :=
  let '(json_result, error) := try_extract_json (remote n (GetTimeZone zone_name)) in
  (fill_non_nullable json_result, error).

(** The detail fetches of [names], the first one being request number [n]. *)
Fixpoint outcomes (n : nat) (names : list pyval) : list (gmap string pyval * pyval) :=
  match names with
  | [] => []
  | name :: rest => zone_result n name :: outcomes (S n) rest
  end.

End Outcomes.

(** A run that goes all the way, from world [w] and database [db] to [w']
    and [db']: the list fetch gave the non-empty list [zones], the two
    temporary tables did not exist, every zone was written to the summary
    table, the batch fetch returned, every error it returned was logged
    and every detail staged, and the staged rows were merged. *)
Definition full_run (remote : nat -> Request -> result Response)
    (latency : nat -> Q) (w : World) (db : DB) (w' : World) (db' : DB) : Prop :=
  let fetched := list_time_zone remote latency w in
  let w1 := snd fetched in
  let import_time := STimestamp (now w1) in
  ∃ zones names summaries staged msgs,
    fst (fst fetched) = PList zones ∧ zones ≠ [] ∧
    temp_time_table db = None ∧ temp_zone_details db = None ∧
    zone_names zones names ∧
    let results := outcomes remote (length (requests w1)) names in
    get_time_zone_details remote latency zones 1 1 w1
    = Ok ((map fst (List.filter succeeded results),
           map snd (List.filter failed results)), w') ∧
    Forall2 (summary_row import_time) zones summaries ∧
    Forall2 (detail_row import_time) (map fst (List.filter succeeded results))
      staged ∧
    adapted (map snd (List.filter failed results)) msgs ∧
    db' = mkDB (error_log db ++ error_rows w1 msgs) summaries
            (merged (zone_details db) staged) (Some [import_time])
            (Some staged) (S (commits db)).

(** * Sample responses and runs *)

Definition empty_reason_response : Response :=
  mkResponse false EmptyString (Some "text/html") None.

Definition truncated_json_response : Response :=
  mkResponse false "Bad Gateway" (Some "application/json") None.

Definition failed_status_response : Response :=
  mkResponse true "OK" (Some "application/json")
    (Some (PDict (<["status" := PStr "FAILED"]> ∅))).

Definition html_page_response : Response :=
  mkResponse true "OK" (Some "text/html; charset=utf-8") None.

Definition rate_limited_response : Response :=
  mkResponse false "Too Many Requests" (Some "text/html") None.

(** A service that knows two zones; the details of the second one are
    refused (rate limit), those of the first come without bounds. *)
Definition summary (zone country_code country : string) (offset : Z) : pyval :=
  PDict (<["countryCode" := PStr country_code]>
          (<["countryName" := PStr country]>
            (<["zoneName" := PStr zone]>
              (<["gmtOffset" := PInt offset]> ∅)))).

Definition andorra : pyval := summary "Europe/Andorra" "AD" "Andorra" 7200.
Definition dubai : pyval := summary "Asia/Dubai" "AE" "United Arab Emirates" 14400.

Definition andorra_detail : gmap string pyval :=
  <["status" := PStr "OK"]>
    (<["countryCode" := PStr "AD"]>
      (<["countryName" := PStr "Andorra"]>
        (<["zoneName" := PStr "Europe/Andorra"]>
          (<["gmtOffset" := PInt 7200]>
            (<["dst" := PStr "1"]>
              (<["zoneStart" := PInt 0]>
                (<["zoneEnd" := PInt 1729994400]> ∅))))))).

Definition json_response (v : pyval) : Response :=
  mkResponse true "OK" (Some "application/json; charset=utf-8") (Some v).

Definition sample_remote (n : nat) (req : Request) : result Response :=
  match req with
  | ListTimeZone =>
      Ok (json_response
            (PDict (<["status" := PStr "OK"]>
                     (<["zones" := PList [andorra; dubai]]> ∅))))
  | GetTimeZone (PStr "Europe/Andorra") => Ok (json_response (PDict andorra_detail))
  | GetTimeZone _ => Ok rate_limited_response
  end.

(** A service that cannot be reached. *)
Definition remote_down (n : nat) (req : Request) : result Response :=
  Raise (RequestException "connection refused").

Definition sample_latency (n : nat) : Q := 1 # 10.

Definition w0 : World := mkWorld 0 0 [] [].

Definition db0 : DB := mkDB [] [] [] None None 0.

Definition andorra_row (import_date : Q) : TZDB_ZONE_DETAILS.row :=
  TZDB_ZONE_DETAILS.mk (SText "Europe/Andorra") (SInt (- max_bigint_value))
    (SInt 1729994400) (SText "AD") (SText "Andorra") (SInt 7200) (SText "1")
    (STimestamp import_date).

(** A staged row without a zone name. *)
Definition nameless_row : TZDB_ZONE_DETAILS.row :=
  TZDB_ZONE_DETAILS.mk SNull (SInt (- max_bigint_value)) (SInt max_bigint_value)
    (SText "AD") (SText "Andorra") (SInt 7200) (SText "0") (STimestamp 2).

(** A zone of the list without its [zoneName]. *)
Definition nameless_zone : pyval :=
  PDict (<["countryCode" := PStr "AD"]>
          (<["countryName" := PStr "Andorra"]>
            (<["gmtOffset" := PInt 7200]> ∅))).

Definition list_response (zones : list pyval) : Response :=
  json_response (PDict (<["status" := PStr "OK"]> (<["zones" := PList zones]> ∅))).

(** A service whose list holds a zone without a name. *)
Definition remote_nameless (n : nat) (req : Request) : result Response :=
  Ok (list_response [nameless_zone]).

(** A service that refuses every detail request with an empty reason
    phrase. *)
Definition remote_empty_reason (n : nat) (req : Request) : result Response :=
  match req with
  | ListTimeZone => Ok (list_response [andorra])
  | GetTimeZone _ => Ok empty_reason_response
  end.


(** A connection in the middle of a run: both temporary tables exist, the
    import time is set, nothing is staged yet. *)
Definition db_staging : DB := mkDB [] [] [] (Some [STimestamp 2]) (Some []) 0.

(** A connection on which [temp_time_table] exists already. *)
Definition db_used : DB := mkDB [] [] [] (Some [STimestamp 0]) (Some []) 1.

(** * Properties *)

(** Inversion of a step of the error monad. *)
Ltac inv_bind H :=
  match type of H with
  | mbind _ ?m = Ok _ =>
      let E := fresh "E" in
      destruct m eqn:E; cbn [mbind result_bind] in H; [|discriminate H]
  end.

(** ** The response decoder *)

Lemma py_ne_str_status (d : gmap string pyval) :
  py_ne_str (dict_get d "status") "OK" = true ↔ d !! "status" ≠ Some (PStr "OK").
Proof.
  unfold dict_get.
  destruct (d !! "status") as [v|] eqn:E; simpl; [|split; [congruence | done]].
  destruct v; simpl; try (split; [congruence | done]).
  destruct (String.eqb_spec s "OK") as [->|Hne]; simpl.
  - split; [discriminate | intros H; by destruct H].
  - split; [intros _ [= ?]; done | done].
Qed.

Lemma extract_error_payload (r : Response) payload error :
  extract_error r = Ok (payload, error) → payload = ∅.
Proof.
  unfold extract_error. destruct (not_json_content r); [by intros [= <- _]|].
  destruct (response_json_dict r); simpl; [by intros [= <- _] | discriminate].
Qed.

Lemma response_json_dict_body (r : Response) d :
  body r = Some (PDict d) → response_json_dict r = Ok d.
Proof. unfold response_json_dict, response_json. by intros ->. Qed.

Lemma response_json_dict_raises (r : Response) :
  (∀ d, body r ≠ Some (PDict d)) → ∃ e, response_json_dict r = Raise e.
Proof.
  unfold response_json_dict, response_json. intros H.
  destruct (body r) as [v|]; simpl; [|eauto].
  destruct v; simpl; eauto. by destruct (H d).
Qed.

(** A refused response always takes the branch of lines 162-166. *)
Lemma extract_json_refused_branch (r : Response) :
  refused r → extract_json r = extract_error r.
Proof.
  unfold extract_json. intros [Hok | (d & Hd & Hst)].
  - by rewrite Hok.
  - destruct (ok r); simpl; [|done].
    rewrite (response_json_dict_body _ _ Hd). simpl.
    by apply py_ne_str_status in Hst as ->.
Qed.

(** C4, as stated, fails: a refused response that announces JSON but
    carries a body that cannot be decoded makes the decoder raise, and a
    refused response whose reason phrase is empty is answered with an
    empty error string. *)
Lemma extract_json_refused_counterexample :
  (refused truncated_json_response ∧
   extract_json truncated_json_response = Raise JSONDecodeError ∧
   ¬ refuses_with_error truncated_json_response) ∧
  (refused empty_reason_response ∧ ¬ refuses_with_error empty_reason_response).
Proof.
  split; split; try (by left).
  - split; [reflexivity|]. intros (error & Heq & _). vm_compute in Heq. congruence.
  - intros (error & Heq & s & -> & Hs). vm_compute in Heq. congruence.
Qed.

(** C4 (amended): for every refused response the decoder, whenever it
    returns, returns the empty payload.  When the content type is not JSON
    it returns, and the error is the reason phrase, a non-empty string as
    soon as the reason phrase is not empty.  When the content type is JSON
    and the body decodes to an object it returns, and the error is that
    object's [message], or the fixed non-empty text when there is none.
    When the content type is JSON and the body does not decode to an
    object, the decoder raises. *)
Theorem extract_json_refused (r : Response) :
  refused r →
  (∀ payload error, extract_json r = Ok (payload, error) → payload = ∅) ∧
  (not_json_content r = true →
     extract_json r = Ok (∅, PStr (reason r)) ∧
     (reason r ≠ EmptyString → refuses_with_error r)) ∧
  (∀ d, not_json_content r = false → body r = Some (PDict d) →
     extract_json r = Ok (∅, dict_get_default d "message" no_message) ∧
     (nonempty_string (dict_get_default d "message" no_message) →
        refuses_with_error r) ∧
     (d !! "message" = None → refuses_with_error r)) ∧
  (not_json_content r = false → (∀ d, body r ≠ Some (PDict d)) →
     ∃ e, extract_json r = Raise e).
Proof.
  intros Href. pose proof (extract_json_refused_branch r Href) as Hbr.
  split; [|split; [|split]].
  - intros payload error. rewrite Hbr. apply extract_error_payload.
  - intros Hct.
    assert (Heq : extract_json r = Ok (∅, PStr (reason r)))
      by (rewrite Hbr; unfold extract_error; by rewrite Hct).
    split; [exact Heq|]. intros Hne. exists (PStr (reason r)).
    split; [exact Heq | by eexists].
  - intros d Hct Hbody.
    assert (Heq : extract_json r
                  = Ok (∅, dict_get_default d "message" no_message)).
    { rewrite Hbr. unfold extract_error. rewrite Hct.
      by rewrite (response_json_dict_body _ _ Hbody). }
    split; [exact Heq|]. split.
    + intros Hne. by eexists.
    + intros Hnone. eexists. split; [exact Heq|].
      unfold dict_get_default. rewrite Hnone. by eexists.
  - intros Hct Hbody. rewrite Hbr. unfold extract_error. rewrite Hct.
    destruct (response_json_dict_raises r Hbody) as [e ->]. by exists e.
Qed.

Lemma extract_json_refused_witness :
  refused failed_status_response ∧
  extract_json failed_status_response = Ok (∅, no_message).
Proof.
  assert (Href : refused failed_status_response).
  { right. eexists. split; [reflexivity|]. vm_compute. congruence. }
  split; [exact Href|].
  destruct (extract_json_refused failed_status_response Href) as (_ & _ & H & _).
  destruct (H _ eq_refl eq_refl) as [Heq _]. exact Heq.
Defined.

(** C5, as stated, fails: a response with a non-JSON content type and an
    undecodable body whose transport status is ok makes the decoder raise
    instead of returning the reason phrase. *)
Lemma extract_json_not_json_counterexample :
  not_json_content html_page_response = true ∧
  body html_page_response = None ∧
  ¬ (∃ payload, extract_json html_page_response
                = Ok (payload, PStr (reason html_page_response))).
Proof.
  split; [reflexivity|]. split; [reflexivity|].
  intros [payload H]. vm_compute in H. discriminate.
Qed.

(** C5 (amended): for every response whose content type is not JSON, the
    decoder returns the empty payload with the reason phrase as the error,
    without reading [message], as soon as the transport status is not ok,
    and also when the status is ok but the body decodes to an object whose
    [status] is not ["OK"]; when the transport status is ok and the body
    cannot be decoded, the decoder raises the decoding error. *)
Theorem extract_json_not_json (r : Response) :
  not_json_content r = true →
  (ok r = false → extract_json r = Ok (∅, PStr (reason r))) ∧
  (∀ d, ok r = true → body r = Some (PDict d) →
     d !! "status" ≠ Some (PStr "OK") →
     extract_json r = Ok (∅, PStr (reason r))) ∧
  (ok r = true → body r = None → extract_json r = Raise JSONDecodeError).
Proof.
  intros Hct. repeat split.
  - intros Hok. unfold extract_json, extract_error. by rewrite Hok, Hct.
  - intros d Hok Hd Hst.
    rewrite extract_json_refused_branch by (right; eauto).
    unfold extract_error. by rewrite Hct.
  - intros Hok Hb. unfold extract_json, response_json_dict, response_json.
    by rewrite Hok, Hb.
Qed.

Lemma extract_json_not_json_witness :
  not_json_content rate_limited_response = true ∧
  extract_json rate_limited_response = Ok (∅, PStr "Too Many Requests").
Proof.
  split; [reflexivity|].
  exact (proj1 (extract_json_not_json rate_limited_response eq_refl) eq_refl).
Defined.

(** ** The zone-detail fetcher: default bounds *)

Lemma truthy_dict (d : gmap string pyval) : truthy (PDict d) = true ↔ d ≠ ∅.
Proof.
  simpl. destruct (map_to_list d) eqn:E.
  - apply map_to_list_empty_iff in E. split; [discriminate | congruence].
  - split; [|done]. intros _ ->. by rewrite map_to_list_empty in E.
Qed.

Lemma absent_null_or_zero_falsy (d : gmap string pyval) k :
  absent_null_or_zero (d !! k) → truthy (dict_get d k) = false.
Proof. unfold dict_get. by intros [-> | [-> | ->]]. Qed.

Lemma nonzero_truthy (d : gmap string pyval) k n :
  n ≠ 0%Z → d !! k = Some (PInt n) → truthy (dict_get d k) = true.
Proof.
  unfold dict_get. intros Hn ->. simpl.
  by destruct (Z.eqb_spec n 0).
Qed.

(** On a non-empty result the two substitutions are independent of each
    other: each looks at its own key only. *)
Lemma fill_non_nullable_nonempty (d : gmap string pyval) :
  d ≠ ∅ →
  fill_non_nullable d =
    let d1 := if truthy (dict_get d "zoneStart") then d
              else <["zoneStart" := PInt (- max_bigint_value)]> d in
    if truthy (dict_get d "zoneEnd") then d1
    else <["zoneEnd" := PInt max_bigint_value]> d1.
Proof.
  intros Hne. unfold fill_non_nullable.
  apply truthy_dict in Hne as Hd. rewrite Hd. cbn [andb].
  destruct (truthy (dict_get d "zoneStart")) eqn:Hs; cbn [negb].
  - rewrite Hd. by destruct (truthy (dict_get d "zoneEnd")).
  - assert (H1 : truthy (PDict (<["zoneStart" := PInt (- max_bigint_value)]> d)) = true)
      by (apply truthy_dict, insert_non_empty).
    rewrite H1. cbn [andb].
    assert (H2 : dict_get (<["zoneStart" := PInt (- max_bigint_value)]> d) "zoneEnd"
                 = dict_get d "zoneEnd")
      by (unfold dict_get; by rewrite lookup_insert_ne).
    rewrite H2. by destruct (truthy (dict_get d "zoneEnd")).
Qed.

Lemma fill_non_nullable_empty : fill_non_nullable ∅ = ∅.
Proof. reflexivity. Qed.

Lemma fill_non_nullable_zoneStart (d : gmap string pyval) :
  d ≠ ∅ →
  fill_non_nullable d !! "zoneStart" =
    if truthy (dict_get d "zoneStart") then d !! "zoneStart"
    else Some (PInt (- max_bigint_value)).
Proof.
  intros Hne. rewrite fill_non_nullable_nonempty by done. cbn zeta.
  destruct (truthy (dict_get d "zoneEnd")), (truthy (dict_get d "zoneStart"));
    by simplify_map_eq.
Qed.

Lemma fill_non_nullable_zoneEnd (d : gmap string pyval) :
  d ≠ ∅ →
  fill_non_nullable d !! "zoneEnd" =
    if truthy (dict_get d "zoneEnd") then d !! "zoneEnd"
    else Some (PInt max_bigint_value).
Proof.
  intros Hne. rewrite fill_non_nullable_nonempty by done. cbn zeta.
  destruct (truthy (dict_get d "zoneEnd")), (truthy (dict_get d "zoneStart"));
    by simplify_map_eq.
Qed.

Lemma fill_non_nullable_other (d : gmap string pyval) k :
  k ≠ "zoneStart" → k ≠ "zoneEnd" → fill_non_nullable d !! k = d !! k.
Proof.
  intros H1 H2. unfold fill_non_nullable.
  repeat match goal with |- context [if ?b then _ else _] => destruct b end;
    by simplify_map_eq.
Qed.

Section FetcherProperties.

Variable remote : nat -> Request -> result Response.
Variable latency : nat -> Q.

(** C6: whenever the detail fetch of a zone produced a non-empty result,
    the fetcher returns it with [zoneStart] equal to exactly -(2^63-1) if
    it was absent, null or zero, with [zoneEnd] equal to exactly 2^63-1
    if it was absent, null or zero, with any non-zero bound as it was
    sent, and with every other field untouched. *)
Theorem get_time_zone_by_name_bounds (zone_name : pyval) (w : World) :
  let response := fst (requests_get remote latency (GetTimeZone zone_name) w) in
  let fetched := fst (try_extract_json response) in
  let returned := fst (fst (get_time_zone_by_name remote latency zone_name w)) in
  fetched ≠ ∅ →
  (absent_null_or_zero (fetched !! "zoneStart") →
     returned !! "zoneStart" = Some (PInt (- (2 ^ 63 - 1)))) ∧
  (absent_null_or_zero (fetched !! "zoneEnd") →
     returned !! "zoneEnd" = Some (PInt (2 ^ 63 - 1))) ∧
  (∀ n, n ≠ 0%Z → fetched !! "zoneStart" = Some (PInt n) →
     returned !! "zoneStart" = Some (PInt n)) ∧
  (∀ n, n ≠ 0%Z → fetched !! "zoneEnd" = Some (PInt n) →
     returned !! "zoneEnd" = Some (PInt n)) ∧
  (∀ k, k ≠ "zoneStart" → k ≠ "zoneEnd" → returned !! k = fetched !! k).
Proof.
  intros response fetched returned Hne.
  assert (Hret : returned = fill_non_nullable fetched).
  { subst returned fetched response. unfold get_time_zone_by_name.
    destruct (requests_get remote latency (GetTimeZone zone_name) w) as [resp w1].
    simpl. by destruct (try_extract_json resp). }
  rewrite Hret. repeat split.
  - intros H. rewrite fill_non_nullable_zoneStart by done.
    by rewrite absent_null_or_zero_falsy.
  - intros H. rewrite fill_non_nullable_zoneEnd by done.
    by rewrite absent_null_or_zero_falsy.
  - intros n Hn H. rewrite fill_non_nullable_zoneStart by done.
    by rewrite (nonzero_truthy _ _ n).
  - intros n Hn H. rewrite fill_non_nullable_zoneEnd by done.
    by rewrite (nonzero_truthy _ _ n).
  - intros k H1 H2. by apply fill_non_nullable_other.
Qed.

End FetcherProperties.

(** ** The zone-list fetcher and the early exit of the orchestrator *)

(** The decoder never returns a payload together with an error. *)
Lemma extract_json_payload_or_error (r : Response) data error :
  extract_json r = Ok (data, error) → error = PStr EmptyString ∨ data = ∅.
Proof.
  unfold extract_json. destruct (negb (ok r)).
  - intros H. right. by eapply extract_error_payload.
  - destruct (response_json_dict r) as [d|e]; simpl; [|discriminate].
    destruct (py_ne_str (dict_get d "status") "OK").
    + intros H. right. by eapply extract_error_payload.
    + intros [= <- <-]. by left.
Qed.

Lemma truthy_not_empty_string (v : pyval) :
  truthy v = true → v ≠ PStr EmptyString.
Proof. by intros H ->. Qed.

Lemma log_error_ok (w : World) (db : DB) (err : pyval) m :
  adapt err = Ok m →
  log_error w db err
  = Ok (mkDB (error_log db ++ error_rows w [m]) (timezones db) (zone_details db)
          (temp_time_table db) (temp_zone_details db) (commits db)).
Proof. unfold log_error. by intros ->. Qed.

Lemma log_error_raise (w : World) (db : DB) (err : pyval) e :
  adapt err = Raise e → log_error w db err = Raise e.
Proof. unfold log_error. by intros ->. Qed.

Section EarlyExit.

Variable remote : nat -> Request -> result Response.
Variable latency : nat -> Q.

Lemma list_time_zone_world (w : World) :
  snd (list_time_zone remote latency w)
  = mkWorld (now w + latency (ticks w)) (S (ticks w))
      (requests w ++ [ListTimeZone]) (stdout w).
Proof.
  unfold list_time_zone, requests_get.
  by repeat match goal with |- context [match ?x with _ => _ end] => destruct x end.
Qed.

Lemma list_time_zone_error_empty (w : World) :
  snd (fst (list_time_zone remote latency w)) ≠ PStr EmptyString →
  fst (fst (list_time_zone remote latency w)) = PList [].
Proof.
  unfold list_time_zone, requests_get.
  destruct (remote (length (requests w)) ListTimeZone) as [r|e]; simpl; [|done].
  destruct (extract_json r) as [[data error]|e] eqn:E; simpl; [|done].
  intros Herr. destruct (extract_json_payload_or_error _ _ _ E) as [->| ->]; [done|].
  reflexivity.
Qed.

(** What [populate_data] does once the zone list tests false. *)
Lemma populate_data_falsy_list (w : World) (db : DB) :
  let fetched := list_time_zone remote latency w in
  truthy (fst (fst fetched)) = false →
  populate_data remote latency w db =
    (db1 ← (if truthy (snd (fst fetched))
            then log_error (snd fetched) db (snd (fst fetched)) else Ok db);
     db2 ← log_error (snd fetched) db1 (PStr no_data_message);
     Ok (snd fetched, commit db2)).
Proof.
  intros fetched. subst fetched. unfold populate_data.
  destruct (list_time_zone remote latency w) as [[zones error] w1]. simpl.
  intros ->. reflexivity.
Qed.

(** C9: the zone-list fetcher never returns a non-empty error together with
    a non-empty list: if the error it returns is not the empty string, the
    list it returns is empty; hence a run whose list fetch reports an error
    takes the early exit: it logs the error, logs the no-data message,
    commits and returns. *)
Theorem list_time_zone_error_excludes_zones (w : World) :
  let fetched := list_time_zone remote latency w in
  (snd (fst fetched) ≠ PStr EmptyString → fst (fst fetched) = PList []) ∧
  (truthy (snd (fst fetched)) = true →
   fst (fst fetched) = PList [] ∧
   ∀ db, populate_data remote latency w db =
           (db1 ← log_error (snd fetched) db (snd (fst fetched));
            db2 ← log_error (snd fetched) db1 (PStr no_data_message);
            Ok (snd fetched, commit db2))).
Proof.
  intros fetched. split; [apply list_time_zone_error_empty|].
  intros Herr.
  assert (Hz : fst (fst fetched) = PList [])
    by (apply list_time_zone_error_empty; by apply truthy_not_empty_string).
  split; [done|]. intros db.
  rewrite populate_data_falsy_list by (fold fetched; by rewrite Hz).
  fold fetched. by rewrite Herr.
Qed.

(** C3 (amended): in every run whose zone-list fetch yields an empty list,
    the only request sent is the list request (the batch fetch is not
    invoked) and nothing is printed; the orchestrator appends to the error
    log the no-data row, preceded by one row holding the list-fetch error
    when that error is non-empty, so one row or two; the summary and detail
    tables and the temporary tables are left as they were (no truncation),
    and the run commits once and returns.  If the driver cannot adapt the
    list-fetch error, the run raises instead and commits nothing. *)
Theorem populate_data_empty_list (w : World) (db : DB) :
  let fetched := list_time_zone remote latency w in
  let error := snd (fst fetched) in
  let w1 := snd fetched in
  fst (fst fetched) = PList [] →
  requests w1 = requests w ++ [ListTimeZone] ∧
  stdout w1 = stdout w ∧
  (truthy error = false →
     populate_data remote latency w db
     = Ok (w1, ended_early w1 db [SText no_data_message])) ∧
  (∀ m, truthy error = true → adapt error = Ok m →
     populate_data remote latency w db
     = Ok (w1, ended_early w1 db [m; SText no_data_message])) ∧
  (∀ e, truthy error = true → adapt error = Raise e →
     populate_data remote latency w db = Raise e).
Proof.
  intros fetched error w1 Hz.
  assert (Hw : w1 = _) by apply list_time_zone_world.
  split; [by rewrite Hw|]. split; [by rewrite Hw|].
  assert (Hpop := populate_data_falsy_list w db). cbn zeta in Hpop.
  fold fetched in Hpop. rewrite Hz in Hpop. specialize (Hpop eq_refl).
  fold error w1 in Hpop. rewrite Hpop. clear Hpop.
  repeat split.
  - intros ->. reflexivity.
  - intros m -> Hm. rewrite (log_error_ok _ _ _ _ Hm). cbn.
    unfold ended_early, commit. cbn. by rewrite <- app_assoc.
  - intros e -> He. by rewrite (log_error_raise _ _ _ _ He).
Qed.

End EarlyExit.

(** ** The rate-limited batch fetch *)

Lemma succeeded_failed_length (l : list (gmap string pyval * pyval)) :
  (length (List.filter succeeded l) + length (List.filter failed l) = length l)%nat.
Proof.
  induction l as [|o l IH]; [done|]. unfold succeeded, failed in *. simpl.
  destruct (truthy (snd o)); simpl; lia.
Qed.

Lemma inject_succ (n : nat) :
  (inject_Z (Z.of_nat (S n)) == inject_Z (Z.of_nat n) + 1)%Q.
Proof. rewrite Nat2Z.inj_succ. unfold Z.succ. by rewrite inject_Z_plus. Qed.

Section BatchProperties.

Variable remote : nat -> Request -> result Response.
Variable latency : nat -> Q.

Lemma outcomes_length (n : nat) (names : list pyval) :
  length (outcomes remote n names) = length names.
Proof. revert n. induction names as [|? ? IH]; intros n; simpl; by rewrite ?IH. Qed.

Lemma get_time_zone_by_name_eq (zone_name : pyval) (w : World) :
  get_time_zone_by_name remote latency zone_name w
  = (zone_result remote (length (requests w)) zone_name,
     mkWorld (now w + latency (ticks w)) (S (ticks w))
       (requests w ++ [GetTimeZone zone_name]) (stdout w)).
Proof.
  unfold get_time_zone_by_name, requests_get, zone_result.
  by destruct (try_extract_json _).
Qed.

(** One iteration of the loop, for a zone that has a name. *)
Lemma details_loop_cons (time_per_request : Q) (total_zones : nat) tz rest
    start_time zone_details errors i w name :
  subscript tz "zoneName" = Ok name →
  details_loop remote latency time_per_request total_zones (tz :: rest) start_time
    zone_details errors i w
  = let outcome := zone_result remote (length (requests w)) name in
    let w2 := mkWorld (now w + latency (ticks w)) (S (ticks w))
                (requests w ++ [GetTimeZone name])
                (stdout w ++ [progress_line i total_zones]) in
    let elapsed_time := (now w2 - start_time)%Q in
    w3 ← (if negb (Qle_bool time_per_request elapsed_time)
          then time_sleep latency (time_per_request - elapsed_time) w2
          else Ok w2);
    details_loop remote latency time_per_request total_zones rest (now w3)
      (if failed outcome then zone_details else zone_details ++ [fst outcome])
      (if failed outcome then errors ++ [snd outcome] else errors)
      (S i) w3.
Proof.
  intros Hname. cbn [details_loop]. rewrite Hname. cbn [mbind result_bind].
  rewrite get_time_zone_by_name_eq.
  destruct (zone_result remote (length (requests w)) name) as [zone_detail error].
  unfold failed. cbn [fst snd]. by destruct (truthy error).
Qed.

(** The pacing step always completes: the remaining time is positive when
    it sleeps.  It sends nothing. *)
Lemma pacing_step (time_per_request start_time : Q) (w2 : World) :
  ∃ w3,
    (if negb (Qle_bool time_per_request (now w2 - start_time))
     then time_sleep latency (time_per_request - (now w2 - start_time)) w2
     else Ok w2) = Ok w3 ∧
    requests w3 = requests w2 ∧
    ((0 <= latency (ticks w2))%Q → (start_time + time_per_request <= now w3)%Q).
Proof.
  destruct (Qle_bool time_per_request (now w2 - start_time)) eqn:E; cbn [negb].
  - exists w2. split; [done|]. split; [done|]. intros _.
    apply Qle_bool_iff in E. lra.
  - assert (Hlt : ¬ (time_per_request <= now w2 - start_time)%Q).
    { intros H. apply Qle_bool_iff in H. congruence. }
    unfold time_sleep.
    assert (Hpos : Qle_bool 0 (time_per_request - (now w2 - start_time)) = true)
      by (apply Qle_bool_iff; lra).
    rewrite Hpos. cbn [negb]. eexists. split; [done|]. split; [done|].
    cbn [now]. intros Hl. lra.
Qed.

(** The loop attempts every zone once, in order, and routes each outcome
    to one of the two lists. *)
Lemma details_loop_result (time_per_request : Q) (total_zones : nat)
    time_zones names :
  zone_names time_zones names →
  ∀ start_time zone_details errors i w,
  ∃ w',
    details_loop remote latency time_per_request total_zones time_zones start_time
      zone_details errors i w
    = Ok ((zone_details
             ++ map fst (List.filter succeeded (outcomes remote (length (requests w)) names)),
           errors
             ++ map snd (List.filter failed (outcomes remote (length (requests w)) names))),
          w') ∧
    requests w' = requests w ++ map GetTimeZone names.
Proof.
  induction 1 as [|tz name rest names' Hname Hrest IH];
    intros start_time zone_details errors i w.
  - exists w. cbn. by rewrite !app_nil_r.
  - rewrite (details_loop_cons _ _ _ _ _ _ _ _ _ _ Hname). cbn zeta.
    match goal with |- context [negb (Qle_bool ?t (now ?w2 - ?s))] =>
      destruct (pacing_step t s w2) as (w3 & -> & Hreq & _) end.
    cbn [mbind result_bind].
    match goal with |- context [details_loop _ _ _ _ _ ?st ?zd ?er ?j w3] =>
      destruct (IH st zd er j w3) as (w' & -> & Hreq') end.
    exists w'. rewrite Hreq', Hreq. cbn [requests].
    rewrite length_app, Nat.add_1_r. cbn [outcomes List.filter].
    replace (succeeded (zone_result remote (length (requests w)) name))
      with (negb (failed (zone_result remote (length (requests w)) name))) by done.
    destruct (failed (zone_result remote (length (requests w)) name));
      cbn [negb map]; rewrite <- !app_assoc; done.
Qed.

Hypothesis latency_nonneg : ∀ n, (0 <= latency n)%Q.

(** Every iteration lasts at least [time_per_request]. *)
Lemma details_loop_duration (time_per_request : Q) (total_zones : nat) time_zones :
  ∀ zone_details errors i w res w',
    details_loop remote latency time_per_request total_zones time_zones (now w)
      zone_details errors i w = Ok (res, w') →
    (now w + inject_Z (Z.of_nat (length time_zones)) * time_per_request <= now w')%Q.
Proof.
  induction time_zones as [|tz rest IH]; intros zone_details errors i w res w'.
  - cbn [details_loop length]. intros [= _ <-].
    change (inject_Z (Z.of_nat 0)) with 0%Q. lra.
  - destruct (subscript tz "zoneName") as [name|e] eqn:Hname.
    2:{ cbn [details_loop]. by rewrite Hname. }
    rewrite (details_loop_cons _ _ _ _ _ _ _ _ _ _ Hname). cbn zeta.
    match goal with |- context [negb (Qle_bool ?t (now ?w2 - ?s))] =>
      destruct (pacing_step t s w2) as (w3 & -> & _ & Htime) end.
    cbn [mbind result_bind]. intros Hloop. apply IH in Hloop.
    specialize (Htime (latency_nonneg _)).
    cbn [length]. rewrite inject_succ. lra.
Qed.

(** C2: the batch fetch lasts at least N × (1/R + B) seconds for a list of
    N zones, whatever time the remote calls take: every run that returns
    has lasted that long (in fact one spacing more, slept before the first
    request), and the run does return whenever the rate is not zero, the
    spacing 1/R + B is not negative and every zone has a name. *)
Theorem get_time_zone_details_duration (time_zones : list pyval)
    (rate_limit buffer : Q) (w : World) :
  (∀ res w',
     get_time_zone_details remote latency time_zones rate_limit buffer w
     = Ok (res, w') →
     (inject_Z (Z.of_nat (length time_zones)) * (1 / rate_limit + buffer)
      <= now w' - now w)%Q ∧
     (inject_Z (Z.of_nat (S (length time_zones))) * (1 / rate_limit + buffer)
      <= now w' - now w)%Q) ∧
  (∀ names, zone_names time_zones names → ¬ (rate_limit == 0)%Q →
     (0 <= 1 / rate_limit + buffer)%Q →
     ∃ res w',
       get_time_zone_details remote latency time_zones rate_limit buffer w
       = Ok (res, w')).
Proof.
  unfold get_time_zone_details. split.
  - intros res w'. destruct (Qeq_bool rate_limit 0); [discriminate|].
    unfold time_sleep at 1.
    destruct (Qle_bool 0 (1 / rate_limit + buffer)) eqn:Hpos;
      cbn [negb mbind result_bind]; [|discriminate].
    apply Qle_bool_iff in Hpos. unfold time_time. intros Hloop.
    apply details_loop_duration in Hloop. cbn [now] in Hloop.
    pose proof (latency_nonneg (ticks w)) as Hl.
    rewrite inject_succ. split; nra.
  - intros names Hnames Hrate Hpos.
    destruct (Qeq_bool rate_limit 0) eqn:E; [by apply Qeq_bool_iff in E|].
    unfold time_sleep at 1. apply Qle_bool_iff in Hpos. rewrite Hpos.
    cbn [negb mbind result_bind].
    match goal with |- context [details_loop _ _ ?t ?n _ ?st ?zd ?er ?j ?w1] =>
      destruct (details_loop_result t n _ _ Hnames st zd er j w1) as (w' & -> & _) end.
    eauto.
Qed.

End BatchProperties.

(** C7: for every list of zones (each with a name, as the zones handed
    over by the orchestrator are), the batch fetch sends exactly one detail
    request per zone, in order, and nothing else; the detail list holds the
    results of exactly the fetches that returned no error, the error list
    the errors of exactly the fetches that returned one, so the two lengths
    sum to the number of zones and a failed fetch never ends the batch. *)
Theorem get_time_zone_details_partition
    (remote : nat -> Request -> result Response) (latency : nat -> Q)
    (time_zones names : list pyval) (rate_limit buffer : Q) (w : World) :
  zone_names time_zones names →
  ¬ (rate_limit == 0)%Q →
  (0 <= 1 / rate_limit + buffer)%Q →
  let fetched := outcomes remote (length (requests w)) names in
  ∃ zone_details errors w',
    get_time_zone_details remote latency time_zones rate_limit buffer w
    = Ok ((zone_details, errors), w') ∧
    zone_details = map fst (List.filter succeeded fetched) ∧
    errors = map snd (List.filter failed fetched) ∧
    requests w' = requests w ++ map GetTimeZone names ∧
    length names = length time_zones ∧
    (length zone_details + length errors = length time_zones)%nat.
Proof.
  intros Hnames Hrate Hpos fetched. unfold get_time_zone_details.
  destruct (Qeq_bool rate_limit 0) eqn:E; [by apply Qeq_bool_iff in E|].
  unfold time_sleep at 1. apply Qle_bool_iff in Hpos. rewrite Hpos.
  cbn [negb mbind result_bind].
  match goal with |- context [details_loop _ _ ?t ?n _ ?st ?zd ?er ?j ?w1] =>
    destruct (details_loop_result remote latency t n _ _ Hnames st zd er j w1)
      as (w' & Hloop & Hreq) end.
  cbn [requests app] in Hloop, Hreq. fold fetched in Hloop.
  eexists _, _, w'. split; [exact Hloop|].
  assert (Hlen : length names = length time_zones)
    by (symmetry; eapply Forall2_length; exact Hnames).
  repeat split; try done.
  rewrite !length_map, succeeded_failed_length.
  subst fetched. by rewrite outcomes_length.
Qed.

(** The zones the orchestrator hands to the batch fetch all have a name:
    they went through the summary insert, which reads [zoneName]. *)
Lemma query_arg_subscript (row : pyval) (k : string) (s : sqlval) :
  query_arg row k = Ok s → ∃ v, subscript row k = Ok v.
Proof.
  unfold query_arg. destruct row; try discriminate.
  destruct (subscript (PDict d) k) as [v|]; [eauto | discriminate].
Qed.

Lemma insert_timezones_zone_names (rows : list pyval) :
  ∀ db db', insert_timezones rows db = Ok db' → ∃ names, zone_names rows names.
Proof.
  induction rows as [|row rows IH]; intros db db' H; cbn [insert_timezones] in H.
  - exists []. constructor.
  - inv_bind H. apply IH in H as [names Hnames].
    unfold tzdb_timezones_query in E. do 3 inv_bind E.
    apply query_arg_subscript in E2 as [name Hname].
    exists (name :: names). by constructor.
Qed.

(** ** The merge of staged details into TZDB_ZONE_DETAILS *)

Lemma sql_holds_and (p q : option bool) :
  sql_holds (sql_and p q) = sql_holds p && sql_holds q.
Proof. by destruct p as [[]|], q as [[]|]. Qed.

Lemma sql_eq_holds_not_null (a b : sqlval) :
  sql_holds (sql_eq a b) = true → sql_is_null a = false ∧ sql_is_null b = false.
Proof. by destruct a, b. Qed.


Lemma on_condition_zonename (s d : TZDB_ZONE_DETAILS.row) :
  sql_holds (on_condition s d) = true →
  sql_is_null (TZDB_ZONE_DETAILS.ZONENAME d) = false.
Proof.
  unfold on_condition. rewrite !sql_holds_and, !andb_true_iff.
  intros [[H _] _]. by apply sql_eq_holds_not_null in H as [_ ?].
Qed.

Lemma on_condition_key (s s' d : TZDB_ZONE_DETAILS.row) :
  TZDB_ZONE_DETAILS.key s' = TZDB_ZONE_DETAILS.key s →
  on_condition s' d = on_condition s d.
Proof. unfold TZDB_ZONE_DETAILS.key, on_condition. by intros [= -> -> ->]. Qed.


Lemma unmatched_key (dest : list TZDB_ZONE_DETAILS.row) (s s' : TZDB_ZONE_DETAILS.row) :
  TZDB_ZONE_DETAILS.key s' = TZDB_ZONE_DETAILS.key s →
  unmatched dest s' = unmatched dest s.
Proof.
  intros Hkey. unfold unmatched. f_equal.
  induction dest as [|d dest IH]; [done|]. simpl.
  by rewrite IH, (on_condition_key _ _ _ Hkey).
Qed.

Lemma unmatched_true (dest : list TZDB_ZONE_DETAILS.row) (s : TZDB_ZONE_DETAILS.row) :
  unmatched dest s = true ↔
  ∀ d, d ∈ dest → sql_holds (on_condition s d) = false.
Proof.
  unfold unmatched. rewrite negb_true_iff. induction dest as [|d dest IH]; simpl.
  - split; [|done]. intros _ d Hd. by apply elem_of_nil in Hd.
  - rewrite orb_false_iff, IH. split.
    + intros [H1 H2] d' [->|Hd']%elem_of_cons; auto.
    + intros H. split; [apply H; left | intros d' Hd'; apply H; by right].
Qed.


(** The join of one staged row, filtered by the WHERE clause: the row
    itself when nothing matches it, nothing otherwise (a destination row
    that matches has a ZONENAME). *)
Lemma filtered_select_one (s : TZDB_ZONE_DETAILS.row) (dest : list TZDB_ZONE_DETAILS.row) :
  filtered_select [s] dest = if unmatched dest s then [s] else [].
Proof.
  unfold filtered_select, left_join, unmatched. cbn [flat_map]. rewrite app_nil_r.
  induction dest as [|d dest IH]; [done|]. cbn [List.filter existsb].
  destruct (sql_holds (on_condition s d)) eqn:Hd; cbn [orb negb].
  - cbn [map List.filter]. unfold where_zonename_is_null at 1. cbn [snd].
    rewrite (on_condition_zonename _ _ Hd).
    clear IH. induction dest as [|d' dest IH]; [done|]. cbn [List.filter].
    destruct (sql_holds (on_condition s d')) eqn:Hd'; [|done].
    cbn [map List.filter]. unfold where_zonename_is_null at 1. cbn [snd].
    by rewrite (on_condition_zonename _ _ Hd').
  - destruct (List.filter _ dest) eqn:E; [done|].
    destruct (existsb _ dest); [|done]. exact IH.
Qed.

Lemma filtered_select_app (staged1 staged2 dest : list TZDB_ZONE_DETAILS.row) :
  filtered_select (staged1 ++ staged2) dest
  = filtered_select staged1 dest ++ filtered_select staged2 dest.
Proof.
  unfold filtered_select, left_join.
  by rewrite flat_map_app, List.filter_app, map_app.
Qed.

Lemma filtered_select_cons (s : TZDB_ZONE_DETAILS.row)
    (staged dest : list TZDB_ZONE_DETAILS.row) :
  filtered_select (s :: staged) dest
  = (if unmatched dest s then [s] else []) ++ filtered_select staged dest.
Proof.
  change (s :: staged) with ([s] ++ staged).
  by rewrite filtered_select_app, filtered_select_one.
Qed.

(** The query selects the staged rows no destination row matches: an
    anti-join, row by row. *)
Lemma filtered_select_anti_join (staged dest : list TZDB_ZONE_DETAILS.row) :
  filtered_select staged dest = List.filter (unmatched dest) staged.
Proof.
  induction staged as [|s staged IH]; [done|].
  rewrite filtered_select_cons, IH. cbn [List.filter].
  by destruct (unmatched dest s).
Qed.

Lemma filtered_insert_query_merged (db : DB) (staged : list TZDB_ZONE_DETAILS.row) :
  temp_zone_details db = Some staged →
  ∃ db', filtered_insert_query db = Ok db' ∧
         zone_details db' = merged (zone_details db) staged ∧
         error_log db' = error_log db ∧ timezones db' = timezones db ∧
         temp_time_table db' = temp_time_table db ∧
         temp_zone_details db' = Some staged ∧ commits db' = commits db.
Proof.
  unfold filtered_insert_query. intros H. rewrite H. eexists.
  split; [reflexivity|]. by repeat split.
Qed.



(** The bounds the detail fetcher returns are never staged as NULL: a
    value that tests true is not [None], and a bound that tests false has
    been replaced. *)
Lemma truthy_adapt_not_null (v : pyval) (s : sqlval) :
  truthy v = true → adapt v = Ok s → sql_is_null s = false.
Proof.
  destruct v as [| | | |[|]|]; simpl; try discriminate; by intros _ [= <-].
Qed.

Lemma filled_bound_not_null (d : gmap string pyval) (k : string) (s : sqlval) :
  k = "zoneStart" ∨ k = "zoneEnd" →
  query_arg (PDict (fill_non_nullable d)) k = Ok s →
  sql_is_null s = false.
Proof.
  intros Hk. unfold query_arg, subscript.
  destruct (fill_non_nullable d !! k) as [v|] eqn:E; simpl; [|discriminate].
  assert (Hne : d ≠ ∅).
  { intros ->. rewrite fill_non_nullable_empty in E. by rewrite lookup_empty in E. }
  assert (Hv : truthy v = true).
  { destruct Hk as [-> | ->].
    - rewrite fill_non_nullable_zoneStart in E by done. unfold dict_get in E.
      destruct (d !! "zoneStart") as [v'|]; simpl in E.
      + destruct (truthy v') eqn:Hv'; by injection E as <-.
      + by injection E as <-.
    - rewrite fill_non_nullable_zoneEnd in E by done. unfold dict_get in E.
      destruct (d !! "zoneEnd") as [v'|]; simpl in E.
      + destruct (truthy v') eqn:Hv'; by injection E as <-.
      + by injection E as <-. }
  by apply truthy_adapt_not_null.
Qed.

Lemma staged_bounds_not_null (d : gmap string pyval) (db db' : DB) :
  temp_table_insert_query (fill_non_nullable d) db = Ok db' →
  ∃ staged r,
    temp_zone_details db' = Some (staged ++ [r]) ∧
    sql_is_null (TZDB_ZONE_DETAILS.ZONESTART r) = false ∧
    sql_is_null (TZDB_ZONE_DETAILS.ZONEEND r) = false.
Proof.
  unfold temp_table_insert_query. intros H. do 8 inv_bind H.
  destruct (temp_zone_details db) as [staged|]; [|discriminate].
  injection H as <-. eexists staged, _. split; [reflexivity|]. cbn. split.
  - eapply filled_bound_not_null; [by left | exact E0].
  - eapply filled_bound_not_null; [by right | exact E1].
Qed.

Lemma has_key_false_unmatched (s d : TZDB_ZONE_DETAILS.row) :
  has_key s = false → sql_holds (on_condition s d) = false.
Proof.
  unfold has_key, on_condition. rewrite !sql_holds_and.
  destruct (TZDB_ZONE_DETAILS.ZONENAME s); try done;
    destruct (TZDB_ZONE_DETAILS.ZONESTART s);
    rewrite ?andb_false_r; try done;
    destruct (TZDB_ZONE_DETAILS.ZONEEND s); rewrite ?andb_false_r; done.
Qed.





(** C10: two staged rows of one batch that carry the same key, a key no
    row of TZDB_ZONE_DETAILS matches, are both inserted by
    [filtered_insert_query], in their staged order: the table it leaves
    is the former table followed by the rows selected of the staged ones,
    the two rows among them. *)
Theorem filtered_insert_query_keeps_batch_duplicates (db : DB)
    (before between after : list TZDB_ZONE_DETAILS.row)
    (s1 s2 : TZDB_ZONE_DETAILS.row) :
  temp_zone_details db = Some (before ++ s1 :: between ++ s2 :: after) →
  TZDB_ZONE_DETAILS.key s1 = TZDB_ZONE_DETAILS.key s2 →
  (∀ d, d ∈ zone_details db → sql_holds (on_condition s1 d) = false) →
  ∃ db',
    filtered_insert_query db = Ok db' ∧
    zone_details db'
    = zone_details db
        ++ filtered_select before (zone_details db)
        ++ s1 :: filtered_select between (zone_details db)
        ++ s2 :: filtered_select after (zone_details db).
Proof.
  intros Hstaged Hkey Habsent.
  destruct (filtered_insert_query_merged db _ Hstaged) as (db' & Hrun & Hz & _).
  exists db'. split; [exact Hrun|]. rewrite Hz. unfold merged. f_equal.
  apply unmatched_true in Habsent as H1.
  assert (H2 : unmatched (zone_details db) s2 = true)
    by (by rewrite <- (unmatched_key (zone_details db) s2 s1 Hkey)).
  rewrite filtered_select_app, filtered_select_cons, filtered_select_app,
    filtered_select_cons.
  by rewrite H1, H2.
Qed.

(** ** One import timestamp per run *)

Lemma log_error_frame (w : World) (db db' : DB) (err : pyval) :
  log_error w db err = Ok db' →
  timezones db' = timezones db ∧ zone_details db' = zone_details db ∧
  temp_time_table db' = temp_time_table db ∧
  temp_zone_details db' = temp_zone_details db.
Proof. unfold log_error. intros H. inv_bind H. by injection H as <-. Qed.

Lemma log_errors_frame (w : World) (errs : list pyval) :
  ∀ db db', log_errors w db errs = Ok db' →
  timezones db' = timezones db ∧ zone_details db' = zone_details db ∧
  temp_time_table db' = temp_time_table db ∧
  temp_zone_details db' = temp_zone_details db.
Proof.
  induction errs as [|e errs IH]; intros db db' H; cbn [log_errors] in H.
  - by injection H as <-.
  - inv_bind H. apply log_error_frame in E as (E1 & E2 & E3 & E4).
    apply IH in H as (H1 & H2 & H3 & H4). by rewrite H1, H2, H3, H4.
Qed.

Lemma tzdb_timezones_query_ok (row : pyval) (db db' : DB) :
  tzdb_timezones_query row db = Ok db' →
  ∃ r, select_import_time db = Ok (TZDB_TIMEZONES.IMPORT_DATE r) ∧
       db' = mkDB (error_log db) (timezones db ++ [r]) (zone_details db)
               (temp_time_table db) (temp_zone_details db) (commits db).
Proof.
  unfold tzdb_timezones_query. intros H. do 5 inv_bind H.
  injection H as <-. eexists. split; cycle 1; reflexivity.
Qed.

Lemma insert_timezones_ok (rows : list pyval) :
  ∀ db db' ts, select_import_time db = Ok ts →
  insert_timezones rows db = Ok db' →
  ∃ new, length new = length rows ∧
         Forall (fun r => TZDB_TIMEZONES.IMPORT_DATE r = ts) new ∧
         db' = mkDB (error_log db) (timezones db ++ new) (zone_details db)
                 (temp_time_table db) (temp_zone_details db) (commits db).
Proof.
  induction rows as [|row rows IH]; intros db db' ts Hts H; cbn [insert_timezones] in H.
  - injection H as <-. exists []. rewrite app_nil_r. by destruct db.
  - inv_bind H. apply tzdb_timezones_query_ok in E as (r & Hr & ->).
    apply (IH _ _ ts) in H as (new & Hlen & Hnew & ->); [|exact Hts].
    exists (r :: new). cbn. rewrite <- app_assoc. split; [by rewrite Hlen|].
    split; [|done]. constructor; [congruence | done].
Qed.

Lemma temp_table_insert_query_ok (row : gmap string pyval) (db db' : DB) :
  temp_table_insert_query row db = Ok db' →
  ∃ r staged, select_import_time db = Ok (TZDB_ZONE_DETAILS.IMPORT_DATE r) ∧
       temp_zone_details db = Some staged ∧
       db' = mkDB (error_log db) (timezones db) (zone_details db)
               (temp_time_table db) (Some (staged ++ [r])) (commits db).
Proof.
  unfold temp_table_insert_query. intros H. do 8 inv_bind H.
  destruct (temp_zone_details db) as [staged|]; [|discriminate].
  injection H as <-. eexists _, _. split; cycle 1; [by split | reflexivity].
Qed.

Lemma stage_details_ok (rows : list (gmap string pyval)) :
  ∀ db db' ts staged, select_import_time db = Ok ts →
  temp_zone_details db = Some staged →
  stage_details rows db = Ok db' →
  ∃ new, Forall (fun r => TZDB_ZONE_DETAILS.IMPORT_DATE r = ts) new ∧
         db' = mkDB (error_log db) (timezones db) (zone_details db)
                 (temp_time_table db) (Some (staged ++ new)) (commits db).
Proof.
  induction rows as [|row rows IH]; intros db db' ts staged Hts Hst H;
    cbn [stage_details] in H.
  - injection H as <-. exists []. rewrite app_nil_r, <- Hst. by destruct db.
  - inv_bind H. apply temp_table_insert_query_ok in E as (r & st & Hr & Hst' & ->).
    rewrite Hst in Hst'. injection Hst' as <-.
    apply (IH _ _ ts (staged ++ [r])) in H as (new & Hnew & ->); [|exact Hts|done].
    exists (r :: new). cbn. rewrite <- app_assoc. split; [|done].
    constructor; [congruence | done].
Qed.

Lemma filtered_select_Forall (P : TZDB_ZONE_DETAILS.row -> Prop)
    (staged dest : list TZDB_ZONE_DETAILS.row) :
  Forall P staged → Forall P (filtered_select staged dest).
Proof.
  rewrite filtered_select_anti_join, !Forall_forall.
  intros H r Hr. apply H. apply list_elem_of_In. apply list_elem_of_In in Hr.
  by apply filter_In in Hr as [? _].
Qed.

(** C8: in every run that completes, either the zone list tested false and
    the run inserted no row into the summary and detail tables, or there
    is one timestamp, the clock read once when [temp_time_table] received
    its only row, right after the list fetch, such that every row of the
    summary table (one per zone of the list, written before the batch
    fetch) and every row appended to the detail table (written after it)
    has that timestamp as its import date. *)
Theorem populate_data_one_import_time
    (remote : nat -> Request -> result Response) (latency : nat -> Q)
    (w w' : World) (db db' : DB) :
  populate_data remote latency w db = Ok (w', db') →
  let fetched := list_time_zone remote latency w in
  (truthy (fst (fst fetched)) = false ∧
   timezones db' = timezones db ∧ zone_details db' = zone_details db) ∨
  (∃ zones new_details,
     let import_time := STimestamp (now (snd fetched)) in
     fst (fst fetched) = PList zones ∧
     temp_time_table db' = Some [import_time] ∧
     length (timezones db') = length zones ∧
     Forall (fun r => TZDB_TIMEZONES.IMPORT_DATE r = import_time) (timezones db') ∧
     zone_details db' = zone_details db ++ new_details ∧
     Forall (fun r => TZDB_ZONE_DETAILS.IMPORT_DATE r = import_time) new_details).
Proof.
  intros H fetched. unfold populate_data in H. subst fetched.
  destruct (list_time_zone remote latency w) as [[time_zones error] w1].
  cbn [fst snd]. inv_bind H.
  assert (Hframe : timezones a = timezones db ∧ zone_details a = zone_details db ∧
                   temp_time_table a = temp_time_table db ∧
                   temp_zone_details a = temp_zone_details db).
  { destruct (truthy error); [by eapply log_error_frame | by injection E as <-]. }
  clear E. destruct Hframe as (Htz & Hzd & Httt & Htzd).
  destruct (truthy time_zones) eqn:Htruthy; cbn [negb] in H.
  - right. inv_bind H. inv_bind H.
    unfold create_temp_time_table in E.
    destruct (temp_time_table a) eqn:Hnone; [discriminate|]. injection E as <-.
    unfold insert_temp_time in E0. cbn in E0. injection E0 as <-.
    destruct time_zones as [| | | |zones|]; try discriminate H.
    cbn [mbind result_bind] in H. inv_bind H.
    eapply (insert_timezones_ok _ _ _ (STimestamp (now w1))) in E
      as (new & Hlen & Hnew & ->); [|reflexivity].
    inv_bind H. destruct a0 as [[details errors] w2]. inv_bind H.
    apply log_errors_frame in E0 as (Htz6 & Hzd6 & Httt6 & Htzd6).
    cbn in Htz6, Hzd6, Httt6, Htzd6.
    inv_bind H. unfold create_temp_zone_details in E0.
    destruct (temp_zone_details a0) eqn:Hz; [discriminate|]. injection E0 as <-.
    inv_bind H.
    eapply (stage_details_ok _ _ _ (STimestamp (now w1)) []) in E0
      as (staged & Hstaged & ->);
      [|unfold select_import_time; cbn; by rewrite Httt6 | reflexivity].
    inv_bind H. cbn in E0. injection E0 as <-. injection H as <- <-.
    exists zones, (filtered_select staged (zone_details db)). cbn.
    rewrite Httt6, Htz6, Hzd6, Hzd. repeat split; try done.
    by apply filtered_select_Forall.
  - left. inv_bind H. injection H as <- <-. split; [done|].
    apply log_error_frame in E as (E1 & E2 & _ & _). cbn.
    by rewrite E1, E2, Htz, Hzd.
Qed.

(** * The statements on concrete runs *)

Lemma sample_latency_nonneg : ∀ n, (0 <= sample_latency n)%Q.
Proof. intros n. unfold sample_latency. lra. Defined.

Lemma sample_zone_names :
  zone_names [andorra; dubai] [PStr "Europe/Andorra"; PStr "Asia/Dubai"].
Proof. repeat constructor. Defined.


Lemma get_time_zone_details_duration_witness :
  ∃ res w',
    get_time_zone_details sample_remote sample_latency [andorra; dubai] 1 1 w0
    = Ok (res, w') ∧
    (inject_Z 2 * (1 / 1 + 1) <= now w' - now w0)%Q.
Proof.
  pose proof (get_time_zone_details_duration sample_remote sample_latency
                sample_latency_nonneg [andorra; dubai] 1 1 w0) as [Hlast Hruns].
  destruct (Hruns _ sample_zone_names) as (res & w' & Hrun).
  - intros H. discriminate H.
  - unfold Qle. simpl. lia.
  - exists res, w'. split; [exact Hrun|]. exact (proj1 (Hlast _ _ Hrun)).
Defined.

(** C3, as stated, fails: when the service cannot be reached the list
    fetch yields the empty list together with an error, and the run writes
    two error-log rows, the error and then the no-data message. *)
Lemma populate_data_empty_list_counterexample :
  fst (fst (list_time_zone remote_down sample_latency w0)) = PList [] ∧
  ∃ w' db',
    populate_data remote_down sample_latency w0 db0 = Ok (w', db') ∧
    length (error_log db0) = 0%nat ∧ length (error_log db') = 2%nat.
Proof.
  split; [reflexivity|]. eexists _, _. split; [reflexivity|]. by split.
Qed.

Lemma populate_data_empty_list_witness :
  populate_data remote_down sample_latency w0 db0
  = Ok (snd (list_time_zone remote_down sample_latency w0),
        ended_early (snd (list_time_zone remote_down sample_latency w0)) db0
          [SText "Python Script Error: RequestException('connection refused')";
           SText no_data_message]).
Proof.
  destruct (populate_data_empty_list remote_down sample_latency w0 db0 eq_refl)
    as (_ & _ & _ & Herr & _).
  apply Herr; reflexivity.
Defined.

Lemma get_time_zone_by_name_bounds_witness :
  let returned :=
    fst (fst (get_time_zone_by_name sample_remote sample_latency
                (PStr "Europe/Andorra") w0)) in
  returned !! "zoneStart" = Some (PInt (- (2 ^ 63 - 1))) ∧
  returned !! "zoneEnd" = Some (PInt 1729994400).
Proof.
  destruct (get_time_zone_by_name_bounds sample_remote sample_latency
              (PStr "Europe/Andorra") w0) as (Hstart & _ & _ & Hend & _).
  - vm_compute. discriminate.
  - split.
    + apply Hstart. right. right. reflexivity.
    + apply Hend; [discriminate | reflexivity].
Defined.

Lemma get_time_zone_details_partition_witness :
  ∃ zone_details errors w',
    get_time_zone_details sample_remote sample_latency [andorra; dubai] 1 1 w0
    = Ok ((zone_details, errors), w') ∧
    errors = [PStr "Too Many Requests"] ∧
    requests w' = [GetTimeZone (PStr "Europe/Andorra"); GetTimeZone (PStr "Asia/Dubai")] ∧
    (length zone_details + length errors = 2)%nat.
Proof.
  destruct (get_time_zone_details_partition sample_remote sample_latency
              [andorra; dubai] _ 1 1 w0 sample_zone_names)
    as (zone_details & errors & w' & Hrun & _ & Herrors & Hreq & _ & Hlen).
  - intros H. discriminate H.
  - unfold Qle. simpl. lia.
  - exists zone_details, errors, w'. split; [exact Hrun|].
    split; [exact Herrors|]. split; [exact Hreq | exact Hlen].
Defined.

Lemma populate_data_one_import_time_witness :
  ∃ w' db',
    populate_data sample_remote sample_latency w0 db0 = Ok (w', db') ∧
    temp_time_table db' = Some [STimestamp (0 + (1 # 10))] ∧
    Forall (fun r => TZDB_TIMEZONES.IMPORT_DATE r = STimestamp (0 + (1 # 10)))
      (timezones db').
Proof.
  destruct (populate_data sample_remote sample_latency w0 db0)
    as [[w' db']|e] eqn:Hrun; [|vm_compute in Hrun; discriminate Hrun].
  exists w', db'. split; [reflexivity|].
  destruct (populate_data_one_import_time _ _ _ _ _ _ Hrun)
    as [[Hfalse _] | (zones & new_details & _ & Htemp & _ & Hstamp & _)].
  - vm_compute in Hfalse. discriminate Hfalse.
  - split; [exact Htemp | exact Hstamp].
Defined.

Lemma list_time_zone_error_excludes_zones_witness :
  fst (fst (list_time_zone remote_down sample_latency w0)) = PList [].
Proof.
  destruct (list_time_zone_error_excludes_zones remote_down sample_latency w0)
    as [Hempty _].
  apply Hempty. vm_compute. discriminate.
Defined.

Lemma filtered_insert_query_keeps_batch_duplicates_witness :
  ∃ db_s db',
    stage_details [fill_non_nullable andorra_detail; fill_non_nullable andorra_detail]
      db_staging = Ok db_s ∧
    filtered_insert_query db_s = Ok db' ∧
    zone_details db' = [andorra_row 2; andorra_row 2].
Proof.
  pose (db_s := mkDB [] [] [] (Some [STimestamp 2])
                  (Some [andorra_row 2; andorra_row 2]) 0).
  destruct (filtered_insert_query_keeps_batch_duplicates db_s [] [] []
              (andorra_row 2) (andorra_row 2) eq_refl eq_refl)
    as (db' & Hrun & Hz).
  - intros d Hd. exact (False_ind _ (proj1 (elem_of_nil d) Hd)).
  - exists db_s, db'. split; [vm_compute; reflexivity|].
    split; [exact Hrun | exact Hz].
Defined.

(** * Further properties of the script *)

(** ** The response decoder, completed *)

Lemma append_nil (s : string) : EmptyString +:+ s = s.
Proof. reflexivity. Qed.

Lemma append_cons (c : Ascii.ascii) (s t : string) :
  String c s +:+ t = String c (s +:+ t).
Proof. reflexivity. Qed.

Lemma prefix_app (a b : string) :
  String.prefix a b = true ↔ ∃ post, b = a +:+ post.
Proof.
  revert b. induction a as [|c a IH]; intros b.
  - destruct b; simpl; (split; [intros _; by eexists | done]).
  - destruct b as [|c' b]; simpl.
    + split; [done | intros [post H]; discriminate H].
    + destruct (Ascii.ascii_dec c c') as [->|Hne].
      * rewrite IH. split; intros [post H]; exists post;
          rewrite append_cons in *; congruence.
      * split; [done | intros [post H]; rewrite append_cons in H; congruence].
Qed.

Lemma str_contains_app (needle hay : string) :
  str_contains needle hay = true ↔ ∃ pre post, hay = pre +:+ needle +:+ post.
Proof.
  induction hay as [|c hay IH]; cbn [str_contains].
  - rewrite orb_false_r, prefix_app. split.
    + intros [post H]. by exists EmptyString, post.
    + intros (pre & post & H). destruct pre as [|c' pre];
        [by exists post | discriminate H].
  - rewrite orb_true_iff, prefix_app, IH. split.
    + intros [[post H] | (pre & post & H)].
      * by exists EmptyString, post.
      * exists (String c pre), post. by rewrite append_cons, H.
    + intros (pre & post & H). destruct pre as [|c' pre].
      * left. by exists post.
      * right. exists pre, post. rewrite append_cons in H. congruence.
Qed.

(** X1: the decoder takes the content type for JSON exactly when the
    header is present and contains the text application/json somewhere,
    whatever surrounds it (a charset parameter, for instance). *)
Theorem not_json_content_false_iff (r : Response) :
  not_json_content r = false ↔
  ∃ pre post, content_type r = Some (pre +:+ "application/json" +:+ post).
Proof.
  unfold not_json_content. destruct (content_type r) as [ct|].
  - rewrite negb_false_iff, str_contains_app. split.
    + intros (pre & post & ->). eauto.
    + intros (pre & post & [= ->]). eauto.
  - split; [done | intros (pre & post & H); discriminate H].
Qed.

(** A non-empty payload is the body of an accepted response. *)
Lemma extract_json_accepts (r : Response) (d : gmap string pyval) (error : pyval) :
  extract_json r = Ok (d, error) → d ≠ ∅ →
  ok r = true ∧ body r = Some (PDict d) ∧ d !! "status" = Some (PStr "OK") ∧
  error = PStr EmptyString.
Proof.
  intros H Hne. unfold extract_json in H.
  destruct (ok r); cbn [negb] in H;
    [|by apply extract_error_payload in H].
  unfold response_json_dict, response_json in H.
  destruct (body r) as [v|]; simpl in H; [|discriminate].
  destruct v; simpl in H; try discriminate.
  destruct (py_ne_str (dict_get d0 "status") "OK") eqn:Hst;
    [by apply extract_error_payload in H|].
  injection H as -> ->. repeat split; try done.
  unfold dict_get in Hst. destruct (d !! "status") as [[]|]; try discriminate.
  simpl in Hst. apply negb_false_iff, String.eqb_eq in Hst. by subst.
Qed.

(** X2: the decoder returns a non-empty payload exactly when the transport
    status is ok and the body decodes to an object whose [status] is
    ["OK"]; the payload is then that object, whole, and the error is the
    empty string. *)
Theorem extract_json_payload_iff (r : Response) (d : gmap string pyval) (error : pyval) :
  extract_json r = Ok (d, error) ∧ d ≠ ∅ ↔
  ok r = true ∧ body r = Some (PDict d) ∧ d !! "status" = Some (PStr "OK") ∧
  error = PStr EmptyString.
Proof.
  split.
  - intros [H Hne]. by apply extract_json_accepts.
  - intros (Hok & Hbody & Hst & ->). split.
    + unfold extract_json, response_json_dict, response_json.
      rewrite Hok, Hbody. simpl. unfold dict_get. by rewrite Hst.
    + intros ->. by rewrite lookup_empty in Hst.
Qed.

Lemma response_json_dict_cases (r : Response) :
  (∃ d, body r = Some (PDict d) ∧ response_json_dict r = Ok d) ∨
  (body r = None ∧ response_json_dict r = Raise JSONDecodeError) ∨
  (∃ v, body r = Some v ∧ (∀ d, v ≠ PDict d) ∧
        response_json_dict r = Raise AttributeError).
Proof.
  unfold response_json_dict, response_json.
  destruct (body r) as [v|]; simpl; [|by right; left].
  destruct v; simpl;
    try (right; right; eexists; split; [reflexivity|]; by split).
  left. by exists d.
Qed.

(** X3: the decoder raises exactly when it has to decode the body (the
    transport status is ok, or the content type is JSON) and the body does
    not decode to an object: the decoding error when it does not decode at
    all, an attribute error when it decodes to something else. *)
Theorem extract_json_raises_iff (r : Response) (e : exn) :
  extract_json r = Raise e ↔
  (ok r = true ∨ not_json_content r = false) ∧
  ((body r = None ∧ e = JSONDecodeError) ∨
   (∃ v, body r = Some v ∧ (∀ d, v ≠ PDict d) ∧ e = AttributeError)).
Proof.
  unfold extract_json, extract_error.
  destruct (response_json_dict_cases r)
    as [(d & Hb & ->) | [(Hb & ->) | (v & Hb & Hv & ->)]]; simpl.
  - assert (Hnever : ¬ ((body r = None ∧ e = JSONDecodeError) ∨
                        (∃ v, body r = Some v ∧ (∀ d, v ≠ PDict d) ∧
                              e = AttributeError))).
    { intros [[Hn _] | (v & Hv & Hne & _)]; [congruence|].
      rewrite Hb in Hv. injection Hv as <-. by destruct (Hne d). }
    destruct (ok r), (not_json_content r),
      (py_ne_str (dict_get d "status") "OK"); simpl;
      (split; [discriminate | intros [_ H]; by destruct Hnever]).
  - destruct (ok r), (not_json_content r); simpl;
      (split;
       [ intros H; first
           [ discriminate H
           | injection H as <-; split; [first [by left | by right] | by left] ]
       | intros [Hneed Hcase]; first
           [ by destruct Hneed as [H|H]
           | destruct Hcase as [[_ ->] | (v & Hv & _)]; [done | congruence] ] ]).
  - destruct (ok r), (not_json_content r); simpl;
      (split;
       [ intros H; first
           [ discriminate H
           | injection H as <-; split;
             [first [by left | by right] | right; by exists v] ]
       | intros [Hneed Hcase]; first
           [ by destruct Hneed as [H|H]
           | destruct Hcase as [[Hn _] | (v' & _ & _ & ->)]; [congruence | done] ] ]).
Qed.

(** ** The fetchers, completed *)

Lemma truthy_dict_false (d : gmap string pyval) : truthy (PDict d) = false → d = ∅.
Proof.
  simpl. destruct (map_to_list d) eqn:E; [|discriminate].
  intros _. by apply map_to_list_empty_iff.
Qed.

Lemma script_error_truthy (e : exn) : truthy (script_error e) = true.
Proof. reflexivity. Qed.

Lemma dict_get_lookup (d : gmap string pyval) (k : string) (v : pyval) :
  d !! k = Some v → dict_get d k = v.
Proof. unfold dict_get. by intros ->. Qed.

(** After the substitution both bounds are present and test true. *)
Lemma fill_non_nullable_truthy_bound (d : gmap string pyval) (k : string) :
  d ≠ ∅ → k = "zoneStart" ∨ k = "zoneEnd" →
  ∃ v, fill_non_nullable d !! k = Some v ∧ truthy v = true.
Proof.
  intros Hne [-> | ->].
  - rewrite fill_non_nullable_zoneStart by done. unfold dict_get.
    destruct (d !! "zoneStart") as [v|]; simpl; [|by eexists].
    destruct (truthy v) eqn:Hv; by eexists.
  - rewrite fill_non_nullable_zoneEnd by done. unfold dict_get.
    destruct (d !! "zoneEnd") as [v|]; simpl; [|by eexists].
    destruct (truthy v) eqn:Hv; by eexists.
Qed.

Lemma fill_non_nullable_ne (d : gmap string pyval) :
  d ≠ ∅ → fill_non_nullable d ≠ ∅.
Proof.
  intros Hne Hempty.
  destruct (fill_non_nullable_truthy_bound d "zoneStart" Hne) as (v & Hv & _);
    [by left|].
  by rewrite Hempty, lookup_empty in Hv.
Qed.

(** X4: the substitution of lines 93-98 goes by the truth value of a
    bound, whatever its type: in a non-empty result a bound that tests
    true (a non-zero number, but also a non-empty string) is kept, a bound
    that is absent or tests false (zero, null, but also [False] or an
    empty string) is replaced by the default, and afterwards both bounds
    are present and test true. *)
Theorem fill_non_nullable_by_truth (d : gmap string pyval) (k : string) (bound : pyval) :
  d ≠ ∅ →
  (k = "zoneStart" ∧ bound = PInt (- max_bigint_value)) ∨
  (k = "zoneEnd" ∧ bound = PInt max_bigint_value) →
  (∀ v, d !! k = Some v → truthy v = true → fill_non_nullable d !! k = Some v) ∧
  (∀ v, d !! k = Some v → truthy v = false →
     fill_non_nullable d !! k = Some bound) ∧
  (d !! k = None → fill_non_nullable d !! k = Some bound) ∧
  (∃ v, fill_non_nullable d !! k = Some v ∧ truthy v = true).
Proof.
  intros Hne Hk.
  assert (Hfill : fill_non_nullable d !! k =
                  if truthy (dict_get d k) then d !! k else Some bound).
  { destruct Hk as [[-> ->] | [-> ->]];
      [by apply fill_non_nullable_zoneStart | by apply fill_non_nullable_zoneEnd]. }
  repeat split.
  - intros v Hv Ht. by rewrite Hfill, (dict_get_lookup _ _ _ Hv), Ht.
  - intros v Hv Ht. by rewrite Hfill, (dict_get_lookup _ _ _ Hv), Ht.
  - intros Hnone. rewrite Hfill. unfold dict_get. by rewrite Hnone.
  - apply fill_non_nullable_truthy_bound; [done|]. by destruct Hk as [[-> _] | [-> _]]; [left | right].
Qed.

(** X5: the substitution is idempotent; it leaves the empty result empty
    (no bound is added to a failed fetch), and to a non-empty result it
    adds at most the two bound keys, removing none. *)
Theorem fill_non_nullable_idempotent (d : gmap string pyval) :
  fill_non_nullable (fill_non_nullable d) = fill_non_nullable d ∧
  (d = ∅ → fill_non_nullable d = ∅) ∧
  (d ≠ ∅ → dom (fill_non_nullable d) = dom d ∪ {["zoneStart"; "zoneEnd"]}).
Proof.
  split; [|split].
  - destruct (truthy (PDict d)) eqn:Hd.
    + apply truthy_dict in Hd.
      destruct (fill_non_nullable_truthy_bound d "zoneStart" Hd) as (vs & Hs & Hts);
        [by left|].
      destruct (fill_non_nullable_truthy_bound d "zoneEnd" Hd) as (ve & He & Hte);
        [by right|].
      rewrite (fill_non_nullable_nonempty (fill_non_nullable d))
        by by apply fill_non_nullable_ne.
      cbn zeta.
      by rewrite (dict_get_lookup _ _ _ Hs), (dict_get_lookup _ _ _ He), Hts, Hte.
    + apply truthy_dict_false in Hd as ->. reflexivity.
  - by intros ->.
  - intros Hne. apply set_eq. intros k.
    rewrite elem_of_union, !elem_of_dom, elem_of_union, !elem_of_singleton.
    destruct (decide (k = "zoneStart")) as [->|Hs].
    { split; [intros _; right; by left|]. intros _.
      destruct (fill_non_nullable_truthy_bound d "zoneStart" Hne) as (v & -> & _);
        [by left | done]. }
    destruct (decide (k = "zoneEnd")) as [->|He].
    { split; [intros _; right; by right|]. intros _.
      destruct (fill_non_nullable_truthy_bound d "zoneEnd" Hne) as (v & -> & _);
        [by right | done]. }
    rewrite fill_non_nullable_other by done.
    split; [by left | by intros [? | [? | ?]]].
Qed.

Section MoreFetcherProperties.

Variable remote : nat -> Request -> result Response.
Variable latency : nat -> Q.

Lemma try_extract_json_cases (response : result Response) :
  fst (try_extract_json response) = ∅ ∨
  (snd (try_extract_json response) = PStr EmptyString ∧
   ∃ r, response = Ok r ∧ ok r = true ∧
        body r = Some (PDict (fst (try_extract_json response))) ∧
        fst (try_extract_json response) !! "status" = Some (PStr "OK")).
Proof.
  unfold try_extract_json. destruct response as [r|e]; simpl; [|by left].
  destruct (extract_json r) as [[d error]|e] eqn:E; simpl; [|by left].
  destruct (truthy (PDict d)) eqn:Hd; [|left; by apply truthy_dict_false].
  right. apply truthy_dict in Hd.
  destruct (extract_json_accepts r d error E Hd) as (Hok & Hb & Hst & ->).
  split; [done|]. by exists r.
Qed.

(** X6: the zone-detail fetcher never returns a result together with an
    error: if the error is not the empty string the result is the empty
    dict (no default bound is added to it), and a non-empty result comes
    with the empty error and is a payload the service marked ["OK"]; a
    transport exception gives the empty dict and a "Python Script Error"
    string, which tests true. *)
Theorem get_time_zone_by_name_result_xor_error (zone_name : pyval) (w : World) :
  let returned := fst (get_time_zone_by_name remote latency zone_name w) in
  (snd returned ≠ PStr EmptyString → fst returned = ∅) ∧
  (fst returned ≠ ∅ →
     snd returned = PStr EmptyString ∧
     fst returned !! "status" = Some (PStr "OK")) ∧
  (∀ e, remote (length (requests w)) (GetTimeZone zone_name) = Raise e →
     returned = (∅, script_error e) ∧ truthy (snd returned) = true).
Proof.
  intros returned. subst returned. rewrite get_time_zone_by_name_eq. cbn [fst].
  unfold zone_result.
  pose proof (try_extract_json_cases
                (remote (length (requests w)) (GetTimeZone zone_name))) as Hcases.
  destruct (try_extract_json _) as [d error] eqn:Htry. cbn [fst snd] in *.
  split; [|split].
  - intros Herr. destruct Hcases as [-> | [-> _]]; [reflexivity | done].
  - intros Hne. destruct Hcases as [-> | (-> & r & _ & _ & _ & Hst)]; [done|].
    split; [done|]. by rewrite fill_non_nullable_other.
  - intros e He. rewrite He in Htry. injection Htry as <- <-. by split.
Qed.

(** X7: the zone-list fetcher never makes zones up: when the list it
    returns tests true, the service answered the list request with an ok
    transport status and an object whose [status] is ["OK"], the list is
    that object's [zones] field, and the error is the empty string. *)
Theorem list_time_zone_zones_origin (w : World) :
  let fetched := fst (list_time_zone remote latency w) in
  truthy (fst fetched) = true →
  ∃ r d, remote (length (requests w)) ListTimeZone = Ok r ∧
         ok r = true ∧ body r = Some (PDict d) ∧
         d !! "status" = Some (PStr "OK") ∧
         d !! "zones" = Some (fst fetched) ∧
         snd fetched = PStr EmptyString.
Proof.
  intros fetched. subst fetched. unfold list_time_zone, requests_get.
  destruct (remote (length (requests w)) ListTimeZone) as [r|e]; simpl; [|done].
  destruct (extract_json r) as [[d error]|e] eqn:E; simpl; [|done].
  unfold dict_get_default. destruct (d !! "zones") as [zones|] eqn:Hz; simpl; [|done].
  intros Hzones.
  assert (Hne : d ≠ ∅) by (intros ->; by rewrite lookup_empty in Hz).
  destruct (extract_json_accepts r d error E Hne) as (Hok & Hb & Hst & ->).
  by exists r, d.
Qed.

End MoreFetcherProperties.

(** ** The batch fetch, completed *)

Section MoreBatchProperties.

Variable remote : nat -> Request -> result Response.
Variable latency : nat -> Q.

(** The two ways through the pacing step: no sleep when the spacing has
    elapsed, else one sleep for what remains of it. *)
Lemma pacing_step_cases (time_per_request start_time : Q) (w2 : World) :
  let pace :=
    if negb (Qle_bool time_per_request (now w2 - start_time))
    then time_sleep latency (time_per_request - (now w2 - start_time)) w2
    else Ok w2 in
  ((time_per_request <= now w2 - start_time)%Q ∧ pace = Ok w2) ∨
  (¬ (time_per_request <= now w2 - start_time)%Q ∧
   pace = Ok (mkWorld
                (now w2 + (time_per_request - (now w2 - start_time))
                 + latency (ticks w2))
                (S (ticks w2)) (requests w2) (stdout w2))).
Proof.
  cbn zeta.
  destruct (Qle_bool time_per_request (now w2 - start_time)) eqn:E; cbn [negb].
  - left. split; [by apply Qle_bool_iff | done].
  - assert (Hlt : ¬ (time_per_request <= now w2 - start_time)%Q).
    { intros H. apply Qle_bool_iff in H. congruence. }
    right. split; [done|]. unfold time_sleep.
    assert (Hpos : Qle_bool 0 (time_per_request - (now w2 - start_time)) = true)
      by (apply Qle_bool_iff; lra).
    by rewrite Hpos.
Qed.



Lemma details_loop_stdout (time_per_request : Q) (total_zones : nat) time_zones :
  ∀ start_time zone_details errors i w res w',
    details_loop remote latency time_per_request total_zones time_zones start_time
      zone_details errors i w = Ok (res, w') →
    stdout w' = stdout w
                ++ map (fun j => progress_line j total_zones)
                     (seq i (length time_zones)).
Proof.
  induction time_zones as [|tz rest IH];
    intros start_time zone_details errors i w res w' H.
  - cbn in H. injection H as _ <-. cbn. by rewrite app_nil_r.
  - destruct (subscript tz "zoneName") as [name|e] eqn:Hname.
    2:{ cbn [details_loop] in H. by rewrite Hname in H. }
    rewrite (details_loop_cons _ _ _ _ _ _ _ _ _ _ _ _ Hname) in H. cbn zeta in H.
    match type of H with context [negb (Qle_bool ?t (now ?w2 - ?s))] =>
      destruct (pacing_step_cases t s w2) as [[_ Hp] | [_ Hp]] end;
      cbn zeta in Hp; rewrite Hp in H; cbn [mbind result_bind] in H;
      apply IH in H; rewrite H; cbn [stdout length seq map];
      by rewrite <- app_assoc.
Qed.

(** X9: a batch that returns has printed exactly one progress line per
    zone, "i/N Time Zones Loaded" for i from 1 to N in this order, after
    what was printed before, and nothing else. *)
Theorem get_time_zone_details_progress (time_zones : list pyval)
    (rate_limit buffer : Q) (w : World) res w' :
  get_time_zone_details remote latency time_zones rate_limit buffer w
  = Ok (res, w') →
  stdout w' = stdout w
              ++ map (fun i => progress_line i (length time_zones))
                   (seq 1 (length time_zones)).
Proof.
  unfold get_time_zone_details. intros H.
  destruct (Qeq_bool rate_limit 0); [discriminate|].
  unfold time_sleep at 1 in H.
  destruct (Qle_bool 0 (1 / rate_limit + buffer));
    cbn [negb mbind result_bind] in H; [|discriminate].
  apply details_loop_stdout in H. by rewrite H.
Qed.

Variable slowest : Q.

Hypothesis latency_bounded : ∀ n, (latency n <= slowest)%Q.



End MoreBatchProperties.

(** ** The persistence steps, completed *)

Lemma log_errors_inv (w : World) (errs : list pyval) :
  ∀ db db', log_errors w db errs = Ok db' →
  ∃ msgs, adapted errs msgs ∧
          db' = mkDB (error_log db ++ error_rows w msgs) (timezones db)
                  (zone_details db) (temp_time_table db) (temp_zone_details db)
                  (commits db).
Proof.
  induction errs as [|e errs IH]; intros db db' H; cbn [log_errors] in H.
  - injection H as <-. exists []. split; [constructor|].
    cbn. rewrite app_nil_r. by destruct db.
  - inv_bind H. unfold log_error in E. inv_bind E. injection E as <-.
    apply IH in H as (msgs & Hmsgs & ->). exists (a0 :: msgs).
    split; [by constructor|]. cbn. by rewrite <- app_assoc.
Qed.

Lemma tzdb_timezones_query_inv (row : pyval) (db db' : DB) :
  tzdb_timezones_query row db = Ok db' →
  ∃ r, select_import_time db = Ok (TZDB_TIMEZONES.IMPORT_DATE r) ∧
       summary_row (TZDB_TIMEZONES.IMPORT_DATE r) row r ∧
       db' = mkDB (error_log db) (timezones db ++ [r]) (zone_details db)
               (temp_time_table db) (temp_zone_details db) (commits db).
Proof.
  unfold tzdb_timezones_query. intros H. do 5 inv_bind H.
  injection H as <-.
  exists (TZDB_TIMEZONES.mk a a0 a1 a2 a3). by repeat split.
Qed.

Lemma insert_timezones_inv (rows : list pyval) :
  ∀ db db' ts, select_import_time db = Ok ts →
  insert_timezones rows db = Ok db' →
  ∃ new, Forall2 (summary_row ts) rows new ∧
         db' = mkDB (error_log db) (timezones db ++ new) (zone_details db)
                 (temp_time_table db) (temp_zone_details db) (commits db).
Proof.
  induction rows as [|row rows IH]; intros db db' ts Hts H; cbn [insert_timezones] in H.
  - injection H as <-. exists []. split; [constructor|].
    rewrite app_nil_r. by destruct db.
  - inv_bind H. apply tzdb_timezones_query_inv in E as (r & Hr & Hrow & ->).
    assert (Hsame : TZDB_TIMEZONES.IMPORT_DATE r = ts) by congruence.
    rewrite Hsame in Hrow.
    apply (IH _ _ ts) in H as (new & Hnew & ->); [|exact Hts].
    exists (r :: new). split; [by constructor|]. cbn. by rewrite <- app_assoc.
Qed.

Lemma temp_table_insert_query_inv (row : gmap string pyval) (db db' : DB) :
  temp_table_insert_query row db = Ok db' →
  ∃ r staged,
    select_import_time db = Ok (TZDB_ZONE_DETAILS.IMPORT_DATE r) ∧
    detail_row (TZDB_ZONE_DETAILS.IMPORT_DATE r) row r ∧
    temp_zone_details db = Some staged ∧
    db' = mkDB (error_log db) (timezones db) (zone_details db)
            (temp_time_table db) (Some (staged ++ [r])) (commits db).
Proof.
  unfold temp_table_insert_query. intros H. do 8 inv_bind H.
  destruct (temp_zone_details db) as [staged|]; [|discriminate].
  injection H as <-.
  exists (TZDB_ZONE_DETAILS.mk a a0 a1 a2 a3 a4 a5 a6), staged.
  by repeat split.
Qed.

Lemma stage_details_inv (rows : list (gmap string pyval)) :
  ∀ db db' ts staged, select_import_time db = Ok ts →
  temp_zone_details db = Some staged →
  stage_details rows db = Ok db' →
  ∃ new, Forall2 (detail_row ts) rows new ∧
         db' = mkDB (error_log db) (timezones db) (zone_details db)
                 (temp_time_table db) (Some (staged ++ new)) (commits db).
Proof.
  induction rows as [|row rows IH]; intros db db' ts staged Hts Hst H;
    cbn [stage_details] in H.
  - injection H as <-. exists []. split; [constructor|].
    rewrite app_nil_r, <- Hst. by destruct db.
  - inv_bind H.
    apply temp_table_insert_query_inv in E as (r & st & Hr & Hrow & Hst' & ->).
    rewrite Hst in Hst'. injection Hst' as <-.
    assert (Hsame : TZDB_ZONE_DETAILS.IMPORT_DATE r = ts) by congruence.
    rewrite Hsame in Hrow.
    apply (IH _ _ ts (staged ++ [r])) in H as (new & Hnew & ->); [|exact Hts|done].
    exists (r :: new). split; [by constructor|]. cbn. by rewrite <- app_assoc.
Qed.

(** ** The merge, completed *)

(** X12: the merge selects exactly the staged rows that no destination row
    matches on the three key columns: a staged row that some destination
    row matches is never inserted, whatever its other columns; the rows
    selected keep their staged order, and the destination rows stay in
    front of them, untouched. *)
Theorem filtered_select_exactly_unmatched
    (staged dest : list TZDB_ZONE_DETAILS.row) :
  (∀ s, s ∈ filtered_select staged dest ↔
        s ∈ staged ∧ ∀ d, d ∈ dest → sql_holds (on_condition s d) = false) ∧
  sublist (filtered_select staged dest) staged ∧
  (∀ db, temp_zone_details db = Some staged → zone_details db = dest →
     ∃ db', filtered_insert_query db = Ok db' ∧
            zone_details db' = dest ++ filtered_select staged dest).
Proof.
  split; [|split].
  - intros s. rewrite filtered_select_anti_join, <- unmatched_true.
    rewrite list_elem_of_In, filter_In, <- list_elem_of_In. done.
  - rewrite filtered_select_anti_join.
    induction staged as [|s staged IH]; [constructor|]. cbn [List.filter].
    destruct (unmatched dest s); by constructor.
  - intros db Hstaged <-.
    destruct (filtered_insert_query_merged db staged Hstaged) as (db' & H & Hz & _).
    by exists db'.
Qed.

(** X13: in SQL an equality with NULL is never true, so a staged row with
    NULL in one of its three key columns matches no destination row: the
    query selects it in every merge, also when the destination already
    holds a row equal to it. *)
Theorem filtered_select_null_key (staged dest : list TZDB_ZONE_DETAILS.row)
    (s : TZDB_ZONE_DETAILS.row) :
  has_key s = false → s ∈ staged →
  s ∈ filtered_select staged dest ∧
  s ∈ filtered_select staged (dest ++ filtered_select staged dest).
Proof.
  intros Hnull Hs.
  assert (Hany : ∀ dest', s ∈ filtered_select staged dest').
  { intros dest'. rewrite filtered_select_anti_join.
    apply list_elem_of_In, filter_In. split; [by apply list_elem_of_In|].
    apply unmatched_true. intros d _. by apply has_key_false_unmatched. }
  split; apply Hany.
Qed.

(** ** The orchestrator, completed *)

Section MoreOrchestratorProperties.

Variable remote : nat -> Request -> result Response.
Variable latency : nat -> Q.

Lemma get_time_zone_details_ok (time_zones names : list pyval)
    (rate_limit buffer : Q) (w : World) res w' :
  zone_names time_zones names →
  get_time_zone_details remote latency time_zones rate_limit buffer w
  = Ok (res, w') →
  res = (map fst (List.filter succeeded (outcomes remote (length (requests w)) names)),
         map snd (List.filter failed (outcomes remote (length (requests w)) names))) ∧
  requests w' = requests w ++ map GetTimeZone names.
Proof.
  intros Hnames. unfold get_time_zone_details.
  destruct (Qeq_bool rate_limit 0); [discriminate|].
  unfold time_sleep at 1.
  destruct (Qle_bool 0 (1 / rate_limit + buffer));
    cbn [negb mbind result_bind]; [|discriminate].
  match goal with |- context [details_loop _ _ ?t ?n _ ?st ?zd ?er ?j ?w1] =>
    destruct (details_loop_result remote latency t n _ _ Hnames st zd er j w1)
      as (w'' & -> & Hreq) end.
  intros [= <- <-]. by split.
Qed.

Lemma list_time_zone_truthy_zones (w : World) :
  truthy (fst (fst (list_time_zone remote latency w))) = true →
  truthy (snd (fst (list_time_zone remote latency w))) = false.
Proof.
  intros Hz. destruct (truthy (snd (fst (list_time_zone remote latency w)))) eqn:He;
    [|done].
  apply truthy_not_empty_string, list_time_zone_error_empty in He.
  by rewrite He in Hz.
Qed.

Lemma populate_data_full_run_inv (w w' : World) (db db' : DB) :
  populate_data remote latency w db = Ok (w', db') →
  truthy (fst (fst (list_time_zone remote latency w))) = true →
  full_run remote latency w db w' db'.
Proof.
  intros H Hzones. pose proof (list_time_zone_truthy_zones w Hzones) as Herr.
  unfold full_run, populate_data in *.
  destruct (list_time_zone remote latency w) as [[time_zones error] w1].
  cbn [fst snd] in *. rewrite Herr, Hzones in H. cbn [negb mbind result_bind] in H.
  inv_bind H. unfold create_temp_time_table in E.
  destruct (temp_time_table db) eqn:Hnone; [discriminate|]. injection E as <-.
  inv_bind H. unfold insert_temp_time in E. cbn in E. injection E as <-.
  destruct time_zones as [| | | |zones|]; try discriminate H.
  cbn [mbind result_bind] in H. inv_bind H.
  pose proof (insert_timezones_zone_names _ _ _ E) as [names Hnames].
  eapply (insert_timezones_inv _ _ _ (STimestamp (now w1))) in E
    as (summaries & Hsummaries & ->); [|reflexivity].
  inv_bind H. destruct a as [[details errors] w2].
  destruct (get_time_zone_details_ok _ _ _ _ _ _ _ Hnames E) as [[= -> ->] Hreq].
  inv_bind H. apply log_errors_inv in E0 as (msgs & Hmsgs & ->).
  inv_bind H. unfold create_temp_zone_details in E0. cbn in E0.
  destruct (temp_zone_details db) eqn:Hznone; [discriminate|]. injection E0 as <-.
  inv_bind H.
  eapply (stage_details_inv _ _ _ (STimestamp (now w1)) []) in E0
    as (staged & Hstaged & ->); [|reflexivity|reflexivity].
  inv_bind H. cbn in E0. injection E0 as <-. injection H as <- <-.
  exists zones, names, summaries, staged, msgs.
  split; [done|]. split; [by intros ->|]. by repeat split.
Qed.

Lemma zone_names_unique (time_zones names names' : list pyval) :
  zone_names time_zones names → zone_names time_zones names' → names = names'.
Proof.
  intros H. revert names'. induction H as [|tz name rest names Hname _ IH];
    intros names' H'; inversion H' as [|? name' ? rest' Hname' Hrest']; subst.
  - done.
  - rewrite Hname in Hname'. injection Hname' as <-. f_equal. by apply IH.
Qed.

Lemma get_time_zone_details_stdout (time_zones : list pyval)
    (rate_limit buffer : Q) (w : World) res w' :
  get_time_zone_details remote latency time_zones rate_limit buffer w
  = Ok (res, w') →
  stdout w' = stdout w
              ++ map (fun i => progress_line i (length time_zones))
                   (seq 1 (length time_zones)).
Proof.
  unfold get_time_zone_details. intros H.
  destruct (Qeq_bool rate_limit 0); [discriminate|].
  unfold time_sleep at 1 in H.
  destruct (Qle_bool 0 (1 / rate_limit + buffer));
    cbn [negb mbind result_bind] in H; [|discriminate].
  apply details_loop_stdout in H. by rewrite H.
Qed.

(** X14: a run whose zone list is not empty completes only if the two
    temporary tables did not exist yet on the connection.  The database it
    leaves then holds: in the error log the old rows followed by one row
    per zone whose fetch failed; in the summary table as many rows as the
    list has zones; in the staging table one row per zone whose fetch
    succeeded; in the detail table the old rows followed by the staged
    rows the query selects; one commit more. *)
Theorem populate_data_full_run_accounting (w w' : World) (db db' : DB) :
  populate_data remote latency w db = Ok (w', db') →
  truthy (fst (fst (list_time_zone remote latency w))) = true →
  ∃ zones names,
    fst (fst (list_time_zone remote latency w)) = PList zones ∧
    zone_names zones names ∧
    let results :=
      outcomes remote
        (length (requests (snd (list_time_zone remote latency w)))) names in
    temp_time_table db = None ∧ temp_zone_details db = None ∧
    length (timezones db') = length zones ∧
    (∃ logged,
       error_log db' = error_log db ++ logged ∧
       length logged = length (List.filter failed results)) ∧
    (∃ staged,
       temp_zone_details db' = Some staged ∧
       length staged = length (List.filter succeeded results) ∧
       zone_details db'
       = zone_details db ++ filtered_select staged (zone_details db)) ∧
    commits db' = S (commits db).
Proof.
  intros H Hz. apply populate_data_full_run_inv in H; [|done].
  destruct H as (zones & names & summaries & staged & msgs & Hzones & _ & Httt
                 & Htzd & Hnames & _ & Hsummaries & Hstaged & Hmsgs & ->).
  exists zones, names. split; [done|]. split; [done|]. cbn zeta in *.
  split; [done|]. split; [done|]. cbn [timezones error_log temp_zone_details
                                        zone_details commits].
  split; [by rewrite (Forall2_length _ _ _ Hsummaries)|]. split; [|split; [|done]].
  - eexists. split; [reflexivity|]. unfold error_rows.
    by rewrite length_map, <- (Forall2_length _ _ _ Hmsgs), length_map.
  - exists staged. split; [done|]. split; [|done].
    by rewrite <- (Forall2_length _ _ _ Hstaged), length_map.
Qed.

(** X15: a run that completes has sent the list request and then, when the
    list was not empty, exactly one detail request per zone of the list,
    in list order, and no other request; it has printed one progress line
    per zone, and nothing when it ended early. *)
Theorem populate_data_requests (w w' : World) (db db' : DB) :
  populate_data remote latency w db = Ok (w', db') →
  let zone_list := fst (fst (list_time_zone remote latency w)) in
  (truthy zone_list = false ∧
   requests w' = requests w ++ [ListTimeZone] ∧ stdout w' = stdout w) ∨
  (∃ zones names,
     zone_list = PList zones ∧ zone_names zones names ∧
     requests w' = requests w ++ ListTimeZone :: map GetTimeZone names ∧
     stdout w' = stdout w
                 ++ map (fun i => progress_line i (length zones))
                      (seq 1 (length zones))).
Proof.
  intros H zone_list. subst zone_list.
  destruct (truthy (fst (fst (list_time_zone remote latency w)))) eqn:Hz.
  - right. apply populate_data_full_run_inv in H; [|done].
    destruct H as (zones & names & _ & _ & _ & Hzones & _ & _ & _ & Hnames
                   & Hbatch & _).
    cbn zeta in Hbatch. exists zones, names. split; [done|]. split; [done|].
    destruct (get_time_zone_details_ok _ _ _ _ _ _ _ Hnames Hbatch) as [_ Hreq].
    apply get_time_zone_details_stdout in Hbatch.
    rewrite Hreq, Hbatch, list_time_zone_world. cbn [requests stdout].
    by rewrite <- app_assoc.
  - left. split; [done|].
    rewrite populate_data_falsy_list in H by done.
    inv_bind H. inv_bind H. injection H as <- _.
    rewrite list_time_zone_world. by split.
Qed.

(** X16: the temporary tables are created without IF NOT EXISTS, so a run
    whose zone list is not empty raises the "already exists" error of the
    database as soon as [temp_time_table] exists on the connection; in
    particular after a run that went all the way, every further run on the
    same connection that gets a non-empty list raises. *)
Theorem populate_data_second_run_raises (w : World) (db : DB) :
  truthy (fst (fst (list_time_zone remote latency w))) = true →
  (∀ rows, temp_time_table db = Some rows →
     populate_data remote latency w db
     = Raise (DatabaseError "relation temp_time_table already exists")) ∧
  (∀ w0 db0 w',
     populate_data remote latency w0 db0 = Ok (w', db) →
     truthy (fst (fst (list_time_zone remote latency w0))) = true →
     populate_data remote latency w db
     = Raise (DatabaseError "relation temp_time_table already exists")).
Proof.
  intros Hz.
  assert (Hexists : ∀ rows, temp_time_table db = Some rows →
            populate_data remote latency w db
            = Raise (DatabaseError "relation temp_time_table already exists")).
  { intros rows Hrows. pose proof (list_time_zone_truthy_zones w Hz) as Herr.
    unfold populate_data.
    destruct (list_time_zone remote latency w) as [[time_zones error] w1].
    cbn [fst snd] in *. rewrite Herr, Hz. cbn [negb mbind result_bind].
    unfold create_temp_time_table. by rewrite Hrows. }
  split; [exact Hexists|].
  intros w0 db0 w' H Hz0. apply populate_data_full_run_inv in H; [|done].
  destruct H as (zones & names & summaries & staged & msgs & _ & _ & _ & _ & _
                 & _ & _ & _ & _ & ->).
  by eapply Hexists.
Qed.

(** X17: a zone of the list that lacks one of the four summary fields, or
    holds one the driver cannot adapt, makes the run raise; nothing is
    committed. *)
Theorem populate_data_missing_field (w : World) (db : DB)
    (zones : list pyval) (zone : pyval) (k : string) :
  fst (fst (list_time_zone remote latency w)) = PList zones →
  zone ∈ zones →
  k ∈ ["countryCode"; "countryName"; "zoneName"; "gmtOffset"] →
  (∀ s, query_arg zone k ≠ Ok s) →
  ∃ e, populate_data remote latency w db = Raise e.
Proof.
  intros Hzones Hzone Hk Hmissing.
  destruct (populate_data remote latency w db) as [[w' db']|e] eqn:H; [|by exists e].
  apply populate_data_full_run_inv in H;
    [|rewrite Hzones; destruct zones; [by apply elem_of_nil in Hzone | done]].
  destruct H as (zones' & _ & summaries & _ & _ & Hz & _ & _ & _ & _ & _
                 & Hsummaries & _).
  rewrite Hzones in Hz. injection Hz as <-.
  apply list_elem_of_lookup in Hzone as [i Hi].
  destruct (Forall2_lookup_l _ _ _ _ _ Hsummaries Hi)
    as (row & _ & H1 & H2 & H3 & H4 & _).
  repeat (apply elem_of_cons in Hk as [-> | Hk]; [by edestruct Hmissing|]).
  by apply elem_of_nil in Hk.
Qed.

(** X18: the batch takes a fetch for a success as soon as its error tests
    false.  A detail response that is refused with an empty error string
    (an empty reason phrase, an empty message) thus reaches the staging
    step as an empty dict, and the run raises there: no run completes in
    which some zone's fetch returned the empty dict with an error that
    tests false. *)
Theorem populate_data_empty_detail_raises (w : World) (db : DB)
    (zones names : list pyval) (outcome : gmap string pyval * pyval) :
  let fetched := list_time_zone remote latency w in
  fst (fst fetched) = PList zones →
  zone_names zones names →
  outcome ∈ outcomes remote (length (requests (snd fetched))) names →
  fst outcome = ∅ → truthy (snd outcome) = false →
  ∃ e, populate_data remote latency w db = Raise e.
Proof.
  intros fetched Hzones Hnames Hin Hempty Hfalsy. subst fetched.
  destruct (populate_data remote latency w db) as [[w' db']|e] eqn:H; [|by exists e].
  assert (Hne : truthy (fst (fst (list_time_zone remote latency w))) = true).
  { rewrite Hzones. destruct zones; [|done].
    inversion Hnames; subst. by apply elem_of_nil in Hin. }
  apply populate_data_full_run_inv in H; [|done].
  destruct H as (zones' & names' & _ & staged & _ & Hz & _ & _ & _ & Hnames'
                 & _ & _ & Hstaged & _).
  cbn zeta in Hstaged. rewrite Hzones in Hz. injection Hz as <-.
  rewrite <- (zone_names_unique _ _ _ Hnames Hnames') in Hstaged.
  assert (Hsel : fst outcome ∈
            map fst (List.filter succeeded
                       (outcomes remote
                          (length (requests (snd (list_time_zone remote latency w))))
                          names))).
  { apply list_elem_of_fmap. exists outcome. split; [done|].
    apply list_elem_of_In, filter_In. split; [by apply list_elem_of_In|].
    unfold succeeded. by rewrite Hfalsy. }
  apply list_elem_of_lookup in Hsel as [i Hi].
  destruct (Forall2_lookup_l _ _ _ _ _ Hstaged Hi) as (row & _ & H1 & _).
  rewrite Hempty in H1. discriminate H1.
Qed.

End MoreOrchestratorProperties.

(** The bounds of a row staged for a filled detail. *)
Lemma detail_row_default_bounds (import_time : sqlval) (d : gmap string pyval)
    (row : TZDB_ZONE_DETAILS.row) :
  d ≠ ∅ →
  detail_row import_time (fill_non_nullable d) row →
  (absent_null_or_zero (d !! "zoneStart") →
     TZDB_ZONE_DETAILS.ZONESTART row = SInt (- (2 ^ 63 - 1))) ∧
  (absent_null_or_zero (d !! "zoneEnd") →
     TZDB_ZONE_DETAILS.ZONEEND row = SInt (2 ^ 63 - 1)) ∧
  (∀ n, n ≠ 0%Z → d !! "zoneStart" = Some (PInt n) →
     TZDB_ZONE_DETAILS.ZONESTART row = SInt n) ∧
  (∀ n, n ≠ 0%Z → d !! "zoneEnd" = Some (PInt n) →
     TZDB_ZONE_DETAILS.ZONEEND row = SInt n).
Proof.
  intros Hne (_ & Hs & He & _).
  unfold query_arg, subscript in Hs, He.
  rewrite fill_non_nullable_zoneStart in Hs by done.
  rewrite fill_non_nullable_zoneEnd in He by done.
  repeat split.
  - intros H. rewrite (absent_null_or_zero_falsy _ _ H) in Hs.
    simpl in Hs. by injection Hs as <-.
  - intros H. rewrite (absent_null_or_zero_falsy _ _ H) in He.
    simpl in He. by injection He as <-.
  - intros n Hn H. rewrite (nonzero_truthy _ _ n Hn H), H in Hs.
    simpl in Hs. by injection Hs as <-.
  - intros n Hn H. rewrite (nonzero_truthy _ _ n Hn H), H in He.
    simpl in He. by injection He as <-.
Qed.

(** X19: when [temp_table_insert_query] stages a detail the fetcher
    returned, it appends one row to [temp_zone_details], and the row
    carries the default bounds end to end: ZONESTART is exactly -(2^63-1)
    when the service left [zoneStart] out or sent null or zero, ZONEEND
    exactly 2^63-1 likewise; a non-zero bound that fits a signed 64-bit
    column is stored as sent; and neither column is NULL. *)
Theorem temp_table_insert_query_default_bounds (d : gmap string pyval) (db db' : DB) :
  temp_table_insert_query (fill_non_nullable d) db = Ok db' →
  ∃ staged row,
    temp_zone_details db = Some staged ∧
    temp_zone_details db' = Some (staged ++ [row]) ∧
    (absent_null_or_zero (d !! "zoneStart") →
       TZDB_ZONE_DETAILS.ZONESTART row = SInt (- (2 ^ 63 - 1))) ∧
    (absent_null_or_zero (d !! "zoneEnd") →
       TZDB_ZONE_DETAILS.ZONEEND row = SInt (2 ^ 63 - 1)) ∧
    (∀ n, n ≠ 0%Z → (- 2 ^ 63 <= n < 2 ^ 63)%Z → d !! "zoneStart" = Some (PInt n) →
       TZDB_ZONE_DETAILS.ZONESTART row = SInt n) ∧
    (∀ n, n ≠ 0%Z → (- 2 ^ 63 <= n < 2 ^ 63)%Z → d !! "zoneEnd" = Some (PInt n) →
       TZDB_ZONE_DETAILS.ZONEEND row = SInt n) ∧
    sql_is_null (TZDB_ZONE_DETAILS.ZONESTART row) = false ∧
    sql_is_null (TZDB_ZONE_DETAILS.ZONEEND row) = false.
Proof.
  intros H.
  destruct (temp_table_insert_query_inv _ _ _ H) as (row & staged & _ & Hrow & Hst & ->).
  assert (Hne : d ≠ ∅).
  { intros ->. destruct Hrow as (Hname & _).
    rewrite fill_non_nullable_empty in Hname. discriminate Hname. }
  destruct (detail_row_default_bounds _ _ _ Hne Hrow) as (Hs0 & He0 & Hs & He).
  destruct Hrow as (_ & Hqs & Hqe & _).
  exists staged, row. split; [done|]. split; [done|].
  split; [done|]. split; [done|].
  split; [intros n Hn _; by apply Hs|]. split; [intros n Hn _; by apply He|].
  split.
  - by apply (filled_bound_not_null d "zoneStart" _ (or_introl eq_refl) Hqs).
  - by apply (filled_bound_not_null d "zoneEnd" _ (or_intror eq_refl) Hqe).
Qed.

(** ** The further properties on concrete runs *)

Lemma andorra_detail_ne : andorra_detail ≠ ∅.
Proof.
  intros H. apply (f_equal (fun d => d !! "status")) in H.
  vm_compute in H. discriminate H.
Defined.

Lemma fill_non_nullable_by_truth_witness :
  fill_non_nullable andorra_detail !! "zoneStart" = Some (PInt (- max_bigint_value)) ∧
  fill_non_nullable andorra_detail !! "zoneEnd" = Some (PInt 1729994400).
Proof.
  split.
  - destruct (fill_non_nullable_by_truth andorra_detail "zoneStart"
                (PInt (- max_bigint_value)) andorra_detail_ne)
      as (_ & Hfalse & _); [by left|].
    apply (Hfalse (PInt 0)); vm_compute; reflexivity.
  - destruct (fill_non_nullable_by_truth andorra_detail "zoneEnd"
                (PInt max_bigint_value) andorra_detail_ne)
      as (Htrue & _); [by right|].
    apply (Htrue (PInt 1729994400)); vm_compute; reflexivity.
Defined.

Lemma sample_list_truthy :
  truthy (fst (fst (list_time_zone sample_remote sample_latency w0))) = true.
Proof. vm_compute. reflexivity. Defined.

Lemma list_time_zone_zones_origin_witness :
  ∃ r d, sample_remote 0 ListTimeZone = Ok r ∧ ok r = true ∧
         body r = Some (PDict d) ∧ d !! "status" = Some (PStr "OK").
Proof.
  destruct (list_time_zone_zones_origin sample_remote sample_latency w0
              sample_list_truthy)
    as (r & d & Hr & Hok & Hb & Hst & _).
  by exists r, d.
Defined.

Lemma get_time_zone_details_progress_witness :
  ∃ res w',
    get_time_zone_details sample_remote sample_latency [andorra; dubai] 1 1 w0
    = Ok (res, w') ∧
    stdout w' = stdout w0
                ++ map (fun i => progress_line i 2) (seq 1 2).
Proof.
  destruct (get_time_zone_details sample_remote sample_latency [andorra; dubai] 1 1 w0)
    as [[res w']|e] eqn:Hrun; [|vm_compute in Hrun; discriminate Hrun].
  exists res, w'. split; [reflexivity|].
  exact (get_time_zone_details_progress _ _ _ _ _ _ _ _ Hrun).
Defined.



Lemma filtered_select_null_key_witness :
  nameless_row ∈ filtered_select [nameless_row] [nameless_row].
Proof.
  destruct (filtered_select_null_key [nameless_row] [nameless_row] nameless_row)
    as [Hin _]; [reflexivity | left | exact Hin].
Defined.

Lemma populate_data_requests_witness :
  ∃ w' db',
    populate_data sample_remote sample_latency w0 db0 = Ok (w', db') ∧
    ∃ zones names,
      zone_names zones names ∧
      requests w' = requests w0 ++ ListTimeZone :: map GetTimeZone names.
Proof.
  destruct (populate_data sample_remote sample_latency w0 db0)
    as [[w' db']|e] eqn:Hrun; [|vm_compute in Hrun; discriminate Hrun].
  exists w', db'. split; [reflexivity|].
  destruct (populate_data_requests _ _ _ _ _ _ Hrun)
    as [[Hfalse _] | (zones & names & _ & Hnames & Hreq & _)].
  - vm_compute in Hfalse. discriminate Hfalse.
  - exists zones, names. split; [exact Hnames | exact Hreq].
Defined.

Lemma populate_data_second_run_raises_witness :
  populate_data sample_remote sample_latency w0 db_used
  = Raise (DatabaseError "relation temp_time_table already exists").
Proof.
  destruct (populate_data_second_run_raises sample_remote sample_latency w0 db_used
              sample_list_truthy) as [Hexists _].
  apply (Hexists [STimestamp 0]). reflexivity.
Defined.

Lemma populate_data_missing_field_witness :
  ∃ e, populate_data remote_nameless sample_latency w0 db0 = Raise e.
Proof.
  apply (populate_data_missing_field remote_nameless sample_latency w0 db0
           [nameless_zone] nameless_zone "zoneName").
  - vm_compute. reflexivity.
  - left.
  - right. right. left.
  - intros s H. vm_compute in H. discriminate H.
Defined.

Lemma populate_data_empty_detail_raises_witness :
  ∃ e, populate_data remote_empty_reason sample_latency w0 db0 = Raise e.
Proof.
  apply (populate_data_empty_detail_raises remote_empty_reason sample_latency w0 db0
           [andorra] [PStr "Europe/Andorra"] (∅, PStr EmptyString)).
  - vm_compute. reflexivity.
  - constructor; [vm_compute; reflexivity | constructor].
  - replace (outcomes remote_empty_reason
               (length (requests (snd (list_time_zone remote_empty_reason
                                         sample_latency w0))))
               [PStr "Europe/Andorra"])
      with [((∅ : gmap string pyval), PStr EmptyString)]
      by (vm_compute; reflexivity).
    left.
  - reflexivity.
  - reflexivity.
Defined.

Lemma populate_data_full_run_accounting_witness :
  ∃ w' db',
    populate_data sample_remote sample_latency w0 db0 = Ok (w', db') ∧
    commits db' = S (commits db0) ∧
    ∃ zones, length (timezones db') = length zones ∧
             fst (fst (list_time_zone sample_remote sample_latency w0)) = PList zones.
Proof.
  destruct (populate_data sample_remote sample_latency w0 db0)
    as [[w' db']|e] eqn:Hrun; [|vm_compute in Hrun; discriminate Hrun].
  exists w', db'. split; [reflexivity|].
  destruct (populate_data_full_run_accounting _ _ _ _ _ _ Hrun sample_list_truthy)
    as (zones & names & Hzones & _ & _ & _ & Hlen & _ & _ & Hcommits).
  split; [exact Hcommits|]. exists zones. split; [exact Hlen | exact Hzones].
Defined.

Lemma temp_table_insert_query_default_bounds_witness :
  ∃ db' row,
    temp_table_insert_query (fill_non_nullable andorra_detail) db_staging = Ok db' ∧
    temp_zone_details db' = Some [row] ∧
    TZDB_ZONE_DETAILS.ZONESTART row = SInt (- (2 ^ 63 - 1)) ∧
    TZDB_ZONE_DETAILS.ZONEEND row = SInt 1729994400.
Proof.
  destruct (temp_table_insert_query (fill_non_nullable andorra_detail) db_staging)
    as [db'|e] eqn:Hrun; [|vm_compute in Hrun; discriminate Hrun].
  destruct (temp_table_insert_query_default_bounds _ _ _ Hrun)
    as (staged & row & Hst & Hst' & Hstart & _ & _ & Hend & _).
  vm_compute in Hst. injection Hst as <-.
  exists db', row. split; [reflexivity|]. split; [exact Hst'|]. split.
  - apply Hstart. right. right. vm_compute. reflexivity.
  - apply Hend.
    + discriminate.
    + split; [apply Z.leb_le | apply Z.ltb_lt]; vm_compute; reflexivity.
    + vm_compute. reflexivity.
Defined.
